(** * contributor_check.py: the contribution and release gate

    A shallow embedding of [scripts/python/contributor_check.py] and the
    properties of its readers and of its gate.

    Conventions of the embedding.
    - A Python [str] is a [string]; its characters are the code points
      below 256.
    - A Python [float] is a binary64 number, a primitive [float]; the
      arithmetic of the script ([/], [*], [>=]) is the IEEE arithmetic of
      [PrimFloat].
    - A call that can raise returns a [result]: [Ok v] or [Raise e].
    - What the script reads from outside (files, the HTTP answer, the git
      index, the command line) is a [World].  The library parsers
      ([json.loads], [ET.fromstring]) and the formatting of floats are
      variables of the section that holds the script. *)

From Stdlib Require Import ZArith List String Ascii Bool Lia Floats.
Import ListNotations.

Set Warnings "-register-all,-inexact-float".

Local Open Scope string_scope.
Local Open Scope Z_scope.

(* ================================================================= *)
(** ** Exceptions and results *)

Inductive exn : Type :=
  | FileNotFoundError
  | JSONDecodeError
  | KeyError
  | TypeError
  | IndexError
  | ValueError
  | OverflowError
  | ConnectionError
  | ParseError
  | InvalidGitRepositoryError.

Inductive result (A : Type) : Type :=
  | Ok (a : A)
  | Raise (e : exn).

Arguments Ok {A} a.
Arguments Raise {A} e.

Definition bind {A B : Type} (r : result A) (k : A -> result B) : result B :=
  match r with
  | Ok a => k a
  | Raise e => Raise e
  end.

Notation "x <- r ;; k" := (bind r (fun x => k))
  (at level 61, r at next level, right associativity).

Definition is_ok {A : Type} (r : result A) : bool :=
  match r with Ok _ => true | Raise _ => false end.

(* ================================================================= *)
(** ** The string methods the script calls *)

Module Str.

Definition code (c : ascii) : Z := Z.of_N (N_of_ascii c).

Definition newline : ascii := ascii_of_N 10.
Definition dquote : ascii := ascii_of_N 34.

(** [" ".join(l)]: the elements of [l] with [sep] between them. *)
Fixpoint join (sep : string) (l : list string) : string :=
  match l with
  | [] => ""
  | [x] => x
  | x :: rest => x ++ sep ++ join sep rest
  end.

(** [s.split(c)] for a separator of one character, the only kind the
    script uses: the pieces between the occurrences of [c], never an
    empty list. *)
Fixpoint split (sep : ascii) (s : string) : list string :=
  match s with
  | EmptyString => [""]
  | String c s' =>
      if Ascii.eqb c sep then "" :: split sep s'
      else match split sep s' with
           | piece :: pieces => String c piece :: pieces
           | [] => [String c ""]
           end
  end.

(** [infile.readlines()]: the lines, each with its terminating newline
    (the last line has none when the text does not end with one). *)
Fixpoint readlines (s : string) : list string :=
  match s with
  | EmptyString => []
  | String c s' =>
      if Ascii.eqb c newline then String c "" :: readlines s'
      else match readlines s' with
           | line :: lines => String c line :: lines
           | [] => [String c ""]
           end
  end.

(** [s.find(sub)]: the index of the first occurrence of [sub], or -1. *)
Fixpoint find_from (sub s : string) (i : Z) : Z :=
  if prefix sub s then i
  else match s with
       | EmptyString => -1
       | String _ s' => find_from sub s' (i + 1)
       end.

Definition find (sub s : string) : Z := find_from sub s 0.

(** [sub in s]. *)
Fixpoint contains (sub s : string) : bool :=
  prefix sub s ||
  match s with
  | EmptyString => false
  | String _ s' => contains sub s'
  end.

(** [s.replace(old, new)] for a non-empty [old]: the occurrences of [old]
    are replaced from left to right, without overlap.  [skip] counts the
    characters of a matched occurrence still to be dropped. *)
Fixpoint replace_go (old new s : string) (skip : nat) : string :=
  match s with
  | EmptyString => ""
  | String c s' =>
      match skip with
      | S k => replace_go old new s' k
      | O =>
          if prefix old s then new ++ replace_go old new s' (String.length old - 1)
          else String c (replace_go old new s' 0)
      end
  end.

Definition replace (old new s : string) : string := replace_go old new s 0.

(** The bound of a slice, as Python clips it: a negative index counts
    from the end, and every index is brought into [0 .. len]. *)
Definition clip (len i : Z) : Z :=
  if i <? 0 then Z.max (i + len) 0 else Z.min i len.

(** [s[a:b]]. *)
Definition slice (s : string) (a b : Z) : string :=
  let len := Z.of_nat (String.length s) in
  let a' := clip len a in
  let b' := clip len b in
  substring (Z.to_nat a') (Z.to_nat (b' - a')) s.

(** [c.isspace()] on the code points below 256: what [strip()] removes. *)
Definition isspace (c : ascii) : bool :=
  let n := code c in
  ((9 <=? n) && (n <=? 13)) || ((28 <=? n) && (n <=? 32))
  || (n =? 133) || (n =? 160).

Fixpoint lstrip (s : string) : string :=
  match s with
  | EmptyString => ""
  | String c s' => if isspace c then lstrip s' else s
  end.

Fixpoint rstrip (s : string) : string :=
  match s with
  | EmptyString => ""
  | String c s' =>
      match rstrip s' with
      | EmptyString => if isspace c then "" else String c ""
      | r => String c r
      end
  end.

(** [s.strip()]. *)
Definition strip (s : string) : string := rstrip (lstrip s).

(** [l[0]], [l[1]] and [l[-1]] of a list. *)
Definition item {A : Type} (l : list A) (i : nat) : result A :=
  match nth_error l i with
  | Some x => Ok x
  | None => Raise IndexError
  end.

Definition last_item {A : Type} (l : list A) : result A :=
  match rev l with
  | x :: _ => Ok x
  | [] => Raise IndexError
  end.

(** The comparison [a >= b] of two strings: by code points, the first
    difference decides, a proper prefix is smaller. *)
Definition ge (a b : string) : bool := String.leb b a.

Definition lt (a b : string) : bool := String.ltb a b.

(** [free_of c s]: the character [c] does not occur in [s]. *)
Fixpoint free_of (c : ascii) (s : string) : bool :=
  match s with
  | EmptyString => true
  | String c' s' => negb (Ascii.eqb c' c) && free_of c s'
  end.

(** The text of [s] before the first [c]; all of [s] when there is none. *)
Fixpoint before (c : ascii) (s : string) : string :=
  match s with
  | EmptyString => ""
  | String c' s' => if Ascii.eqb c' c then "" else String c' (before c s')
  end.

(** The text of [s] after the first [c]; nothing when there is none. *)
Fixpoint after (c : ascii) (s : string) : string :=
  match s with
  | EmptyString => ""
  | String c' s' => if Ascii.eqb c' c then s' else after c s'
  end.

(** [n] newlines. *)
Fixpoint newlines (n : nat) : string :=
  match n with
  | O => ""
  | S k => String newline (newlines k)
  end.

End Str.

(* ================================================================= *)
(** ** [float(s)]: a decimal numeral to the nearest binary64 number *)

Module PyFloat.

Definition is_digit (c : ascii) : bool :=
  (48 <=? Str.code c) && (Str.code c <=? 57).

Definition is_underscore (c : ascii) : bool := Str.code c =? 95.

(** The white space [float] strips: tab, line feed, vertical tab, form
    feed, carriage return and space; the two spaces above 127 are turned
    into a space before the numeral is read. *)
Definition is_space (c : ascii) : bool :=
  let n := Str.code c in
  ((9 <=? n) && (n <=? 13)) || (n =? 32) || (n =? 133) || (n =? 160).

(** An underscore is allowed between two digits and nowhere else; the
    allowed ones are dropped.  [prev] is the character just read. *)
Fixpoint drop_underscores (prev : option ascii) (s : string) : option string :=
  match s with
  | EmptyString =>
      match prev with
      | Some p => if is_underscore p then None else Some ""
      | None => Some ""
      end
  | String c s' =>
      let prev_digit := match prev with Some p => is_digit p | None => false end in
      let prev_under := match prev with Some p => is_underscore p | None => false end in
      if is_underscore c then
        if prev_digit then drop_underscores (Some c) s' else None
      else if prev_under && negb (is_digit c) then None
      else option_map (String c) (drop_underscores (Some c) s')
  end.

Fixpoint lstrip (s : string) : string :=
  match s with
  | EmptyString => ""
  | String c s' => if is_space c then lstrip s' else s
  end.

Fixpoint rstrip (s : string) : string :=
  match s with
  | EmptyString => ""
  | String c s' =>
      match rstrip s' with
      | EmptyString => if is_space c then "" else String c ""
      | r => String c r
      end
  end.

(** The leading digits of [s], and what follows them. *)
Fixpoint take_digits (s : string) : string * string :=
  match s with
  | EmptyString => ("", "")
  | String c s' =>
      if is_digit c then
        let (d, r) := take_digits s' in (String c d, r)
      else ("", s)
  end.

Fixpoint digits_value (acc : Z) (s : string) : Z :=
  match s with
  | EmptyString => acc
  | String c s' => digits_value (10 * acc + (Str.code c - 48)) s'
  end.

(** An optional sign: [true] for a minus. *)
Definition take_sign (s : string) : bool * string :=
  match s with
  | String c s' =>
      if Str.code c =? 45 then (true, s')
      else if Str.code c =? 43 then (false, s')
      else (false, s)
  | EmptyString => (false, s)
  end.

Definition lower (c : ascii) : ascii :=
  if (65 <=? Str.code c) && (Str.code c <=? 90)
  then ascii_of_N (N_of_ascii c + 32) else c.

Fixpoint lower_string (s : string) : string :=
  match s with
  | EmptyString => ""
  | String c s' => String (lower c) (lower_string s')
  end.

(** The exponent part, [e] or [E], an optional sign and at least one
    digit; when the digits are missing nothing is consumed. *)
Definition take_exponent (s : string) : Z * string :=
  match s with
  | String c s' =>
      if (Str.code c =? 101) || (Str.code c =? 69) then
        let (neg, s1) := take_sign s' in
        let (d, r) := take_digits s1 in
        match d with
        | EmptyString => (0, s)
        | _ => ((if neg then - digits_value 0 d else digits_value 0 d), r)
        end
      else (0, s)
  | EmptyString => (0, s)
  end.

(** The binary64 number nearest to [m * 10 ^ e10] (ties to even), with
    the sign [neg]; out of range it is an infinity or a zero. *)
Definition nearest (neg : bool) (m e10 : Z) : float :=
  match m with
  | Zpos p =>
      let num := if 0 <=? e10 then Z.to_pos (Zpos p * 10 ^ e10) else p in
      let den := if 0 <=? e10 then 1%positive else Z.to_pos (10 ^ (- e10)) in
      SF2Prim (SFdiv prec emax (S754_finite neg num 0) (S754_finite false den 0))
  | _ => SF2Prim (S754_zero neg)
  end.

(** The numeral after the strip: a sign, then [inf], [infinity] or [nan]
    in any case, or digits with an optional point and exponent; all of
    the text has to be used. *)
Definition parse (s : string) : result float :=
  let (neg, body) := take_sign s in
  let word := lower_string body in
  if (word =? "inf")%string || (word =? "infinity")%string then
    Ok (if neg then neg_infinity else infinity)
  else if (word =? "nan")%string then Ok nan
  else
    let (ip, r1) := take_digits body in
    let (fp, r2) :=
      match r1 with
      | String c r => if Str.code c =? 46 then take_digits r else ("", r1)
      | EmptyString => ("", r1)
      end in
    match (ip ++ fp)%string with
    | EmptyString => Raise ValueError
    | mant =>
        let (e, r3) := take_exponent r2 in
        match r3 with
        | EmptyString =>
            Ok (nearest neg (digits_value 0 mant) (e - Z.of_nat (String.length fp)))
        | _ => Raise ValueError
        end
    end.

Fixpoint spaces_to_ascii (s : string) : string :=
  match s with
  | EmptyString => ""
  | String c s' =>
      String (if (Str.code c =? 133) || (Str.code c =? 160) then " "%char else c)
             (spaces_to_ascii s')
  end.

(** [float(s)]. *)
Definition of_string (s : string) : result float :=
  match drop_underscores None (spaces_to_ascii s) with
  | None => Raise ValueError
  | Some t => parse (rstrip (lstrip t))
  end.

(** [float(n)] for an [int] below 2^63. *)
Definition of_int (n : Z) : float := PrimFloat.of_uint63 (Uint63.of_Z n).

(** [a / b] on two [int]s, [b] positive: the float nearest to the
    quotient (ties to even), and [OverflowError] when the quotient is
    beyond the floats. *)
Definition int_truediv (a : Z) (b : positive) : result float :=
  match a with
  | Z0 => Ok 0%float
  | Zpos p | Zneg p =>
      let q := SFdiv prec emax (S754_finite (a <? 0) p 0) (S754_finite false b 0) in
      match q with
      | S754_finite _ _ _ | S754_zero _ => Ok (SF2Prim q)
      | _ => Raise OverflowError
      end
  end.

End PyFloat.

(* ================================================================= *)
(** ** What the library parsers return *)

(** The value of [json.loads]: a [dict] is the list of its items, read by
    the first item with the key. *)
Inductive json : Type :=
  | JNull
  | JBool (b : bool)
  | JInt (n : Z)
  | JFloat (x : float)
  | JStr (s : string)
  | JList (l : list json)
  | JDict (d : list (string * json)).

Fixpoint lookup (k : string) (d : list (string * json)) : option json :=
  match d with
  | [] => None
  | (k', v) :: d' => if (k' =? k)%string then Some v else lookup k d'
  end.

(** [v[k]] with a string key. *)
Definition getitem (v : json) (k : string) : result json :=
  match v with
  | JDict d =>
      match lookup k d with
      | Some x => Ok x
      | None => Raise KeyError
      end
  | _ => Raise TypeError
  end.

(** [v / 100]. *)
Definition truediv_100 (v : json) : result float :=
  match v with
  | JFloat x => Ok (x / 100)%float
  | JInt n => PyFloat.int_truediv n 100
  | JBool b => PyFloat.int_truediv (if b then 1 else 0) 100
  | _ => Raise TypeError
  end.

(** An element of [xml.etree.ElementTree]: its tag, its text ([None]
    when it has none) and its children. *)
Inductive Element : Type :=
  | Elem (tag : string) (text : option string) (children : list Element).

Definition tag (e : Element) : string := let (t, _, _) := e in t.
Definition text (e : Element) : option string := let (_, x, _) := e in x.

(** [tree.iter(t)]: the element and its descendants with tag [t], in
    document order. *)
Fixpoint iter (t : string) (e : Element) : list Element :=
  match e with
  | Elem tg _ children =>
      ((if (tg =? t)%string then [e] else []) ++ flat_map (iter t) children)%list
  end.

(* ================================================================= *)
(** ** The world the script runs in *)

Record Response : Type := { status_code : Z; content : string }.

(** The entries of [repo.index.diff(None)] and of
    [repo.index.diff("HEAD")]. *)
Record Repo : Type := { diff_worktree : list string; diff_head : list string }.

(** [release_check] is [args.release_check] as [argparse] delivers it;
    [read_text path] is what [open(path, "r")] and [read()] give, the text
    of the file or the exception of a file that cannot be read;
    [requests_get url] is the answer of [requests.get(url)] or its
    exception; [git_Repo] is [git.Repo()]. *)
Record World : Type := {
  release_check : bool;
  read_text : string -> result string;
  requests_get : string -> result Response;
  git_Repo : result Repo
}.

(** How a run ends: [sys.exit(code)] or the end of [main] (code 0), or an
    exception nobody catches, which the interpreter turns into status 1. *)
Inductive status : Type :=
  | Exit (code : Z)
  | Uncaught (e : exn).

Definition exit_code (s : status) : Z :=
  match s with
  | Exit c => c
  | Uncaught _ => 1
  end.

Record Run : Type := { stdout : string; ending : status }.

Definition eq_opt (a b : option string) : bool :=
  match a, b with
  | Some x, Some y => (x =? y)%string
  | None, None => true
  | _, _ => false
  end.

(** [a >= b] and [a < b] on values that are a [str] or [None]: only two
    strings can be ordered. *)
Definition py_ge (a b : option string) : result bool :=
  match a, b with
  | Some x, Some y => Ok (Str.ge x y)
  | _, _ => Raise TypeError
  end.

Definition py_lt (a b : option string) : result bool :=
  match a, b with
  | Some x, Some y => Ok (Str.lt x y)
  | _, _ => Raise TypeError
  end.

Definition nonempty (s : string) : bool :=
  match s with EmptyString => false | _ => true end.

(* ================================================================= *)
(** ** The script *)

Definition MIN_COVERAGE_SCORE : float := 0.8%float.
Definition MIN_LINT_SCORE : float := 0.9%float.
Definition PYPI_XML_URL : string :=
  "https://pypi.org/rss/project/terrasnek/releases.xml".

Definition lint_preamble : string := "Your code has been rated at ".

(** The messages of the gate that hold no number. *)
Definition mismatch_msg : string :=
  "The versions do not match across the important files (CHANGELOG.md, setup.py, docs/conf.py).".
Definition released_changelog_msg : string :=
  "The latest version in CHANGELOG.md is greater or equal to the latest in PyPi, do not release.".
Definition released_pypi_config_msg : string :=
  "The latest version in the PyPi config is greater or equal to the latest in PyPi, do not release.".
Definition released_docs_msg : string :=
  "The latest version in docs config is greater or equal to the latest in PyPi, do not release.".
Definition dirty_msg : string :=
  "No releasing the project with staged or modified files in the git repo.".
Definition versions_ok_line : string :=
  "All of the versions match in the important files (CHANGELOG.md, setup.py, docs/conf.py).".
Definition release_ok_line : string :=
  "All versions locally are greater than published PyPi modules, good to release.".

(** [print(a)] and [print(a, b)] append to what is already written. *)
Definition print1 (out a : string) : string :=
  out ++ a ++ String Str.newline "".
Definition print2 (out a b : string) : string :=
  out ++ a ++ " " ++ b ++ String Str.newline "".

(** The loop of [get_pypi_latest_published_version] over
    [enumerate(tree.iter("title"))]: [i] is the index of the next item,
    [latest] the value of [latest_published_version] so far. *)
Fixpoint title_loop (i : nat) (items : list Element) (latest : option string)
  : option string :=
  match items with
  | [] => latest
  | item :: rest =>
      if Nat.eqb i 1 then text item
      else title_loop (S i) rest latest
  end.

(** The loop over [changelog_lines]. *)
Fixpoint changelog_loop (lines : list string) (changelog_version : option string)
  : option string :=
  match lines with
  | [] => changelog_version
  | line :: rest =>
      if Str.contains "##" line then
        Some (Str.strip (Str.slice line (Str.find "[" line + 1) (Str.find "]" line)))
      else changelog_loop rest changelog_version
  end.

(** The loops over [setup_lines] and [conf_lines]: the first line with
    [key] gives the second piece of its split on [quote]. *)
Fixpoint quoted_loop (key : string) (quote : ascii) (lines : list string)
  (version : option string) : result (option string) :=
  match lines with
  | [] => Ok version
  | line :: rest =>
      if Str.contains key line then
        piece <- Str.item (Str.split quote line) 1 ;;
        Ok (Some (Str.strip piece))
      else quoted_loop key quote rest version
  end.

Definition versions : Type := option string * option string * option string.

Section Script.

(** [json.loads], [ET.fromstring], the text of a float in an f-string and
    [round(x, ndigits)] belong to the Python library. *)
Variable json_loads : string -> result json.
Variable ET_fromstring : string -> result Element.
Variable float_str : float -> string.
Variable py_round : float -> Z -> float.

Definition get_coverage_score (w : World) : result float :=
  text <- read_text w "./coverage.tfc.json" ;;
  json_coverage <- json_loads text ;;
  totals <- getitem json_coverage "totals" ;;
  percent <- getitem totals "percent_covered" ;;
  truediv_100 percent.

Definition get_lint_score (w : World) : result float :=
  lint_results <- read_text w "./lint_output.txt" ;;
  let lint_results_list := filter nonempty (Str.split Str.newline lint_results) in
  score_line <- Str.last_item lint_results_list ;;
  field <- Str.item (Str.split " " (Str.replace lint_preamble "" score_line)) 0 ;;
  numeral <- Str.item (Str.split "/" field) 0 ;;
  x <- PyFloat.of_string numeral ;;
  Ok (x / 10)%float.

Definition get_pypi_latest_published_version (w : World) : result (option string) :=
  req <- requests_get w PYPI_XML_URL ;;
  tree <- ET_fromstring (content req) ;;
  Ok (title_loop 0 (iter "title" tree) None).

Definition get_local_versions (w : World) : result versions :=
  changelog_text <- read_text w "./CHANGELOG.md" ;;
  let changelog_version := changelog_loop (Str.readlines changelog_text) None in
  setup_text <- read_text w "./setup.py" ;;
  pypi_config_version <-
    quoted_loop "version" Str.dquote (Str.readlines setup_text) None ;;
  conf_text <- read_text w "./docs/conf.py" ;;
  docs_version <- quoted_loop "release" "'" (Str.readlines conf_text) None ;;
  Ok (changelog_version, pypi_config_version, docs_version).

Definition has_staged_or_modified_files (w : World) : result bool :=
  repo <- git_Repo w ;;
  let count_modified_files := List.length (diff_worktree repo) in
  let count_staged_files := List.length (diff_head repo) in
  Ok (Nat.ltb 0 count_modified_files || Nat.ltb 0 count_staged_files).

Definition coverage_msg (coverage_score : float) : string :=
  "The coverage score " ++ float_str coverage_score
  ++ "                 does not meet the coverage threshold "
  ++ float_str MIN_COVERAGE_SCORE ++ ".".

Definition lint_msg (lint_score : float) : string :=
  "The lint score " ++ float_str lint_score
  ++ " does not meet the lint threshold " ++ float_str MIN_LINT_SCORE ++ ".".

Definition append_if (b : bool) (err_msg_list : list string) (msg : string)
  : list string :=
  if b then (err_msg_list ++ [msg])%list else err_msg_list.

(** Lines 137 to 145: the two checks applied in every run. *)
Definition threshold_checks (coverage_score lint_score : float) : list string :=
  let meets_coverage := (MIN_COVERAGE_SCORE <=? coverage_score)%float in
  let meets_lint := (MIN_LINT_SCORE <=? lint_score)%float in
  let err_msg_list := [] in
  let err_msg_list := append_if (negb meets_coverage) err_msg_list (coverage_msg coverage_score) in
  append_if (negb meets_lint) err_msg_list (lint_msg lint_score).

(** Lines 148 to 174: the body of [if args.release_check]. *)
Definition release_checks (w : World) (vs : versions) (err_msg_list : list string)
  : result (option string * list string) :=
  let '(changelog_version, pypi_config_version, docs_version) := vs in
  let version_match :=
    eq_opt changelog_version pypi_config_version
    && eq_opt pypi_config_version docs_version in
  latest_published_version <- get_pypi_latest_published_version w ;;
  let err_msg_list := append_if (negb version_match) err_msg_list mismatch_msg in
  ge_changelog <- py_ge latest_published_version changelog_version ;;
  let err_msg_list := append_if ge_changelog err_msg_list released_changelog_msg in
  ge_pypi_config <- py_ge latest_published_version pypi_config_version ;;
  let err_msg_list := append_if ge_pypi_config err_msg_list released_pypi_config_msg in
  ge_docs <- py_ge latest_published_version docs_version ;;
  let err_msg_list := append_if ge_docs err_msg_list released_docs_msg in
  dirty <- has_staged_or_modified_files w ;;
  let err_msg_list := append_if dirty err_msg_list dirty_msg in
  Ok (latest_published_version, err_msg_list).

(** Lines 131 to 174: every check, giving [latest_published_version] and
    [err_msg_list]. *)
Definition checks (w : World) (coverage_score lint_score : float) (vs : versions)
  : result (option string * list string) :=
  let err_msg_list := threshold_checks coverage_score lint_score in
  if release_check w then release_checks w vs err_msg_list
  else Ok (None, err_msg_list).

Definition coverage_ok_line (coverage_score : float) : string :=
  "Coverage score meets the threshold of "
  ++ float_str (MIN_COVERAGE_SCORE * 100)%float ++ "% at "
  ++ float_str (py_round (coverage_score * 100)%float 2) ++ "%.".

Definition lint_ok_line (lint_score : float) : string :=
  "Lint score meets the threshold of "
  ++ float_str (MIN_LINT_SCORE * 100)%float ++ "% at "
  ++ float_str (py_round (lint_score * 100)%float 2) ++ "%.".

(** The condition of the last [if]: [latest_published_version is not None
    and ... < ... and ... < ... and ... < ...], left to right, stopping at
    the first false. *)
Definition good_to_release (latest_published_version : option string) (vs : versions)
  : result bool :=
  let '(changelog_version, pypi_config_version, docs_version) := vs in
  match latest_published_version with
  | None => Ok false
  | Some _ =>
      lt1 <- py_lt latest_published_version changelog_version ;;
      if lt1 then
        lt2 <- py_lt latest_published_version pypi_config_version ;;
        if lt2 then py_lt latest_published_version docs_version
        else Ok false
      else Ok false
  end.

(** Lines 176 to 187. *)
Definition report (coverage_score lint_score : float) (vs : versions)
  (latest_published_version : option string) (err_msg_list : list string) : Run :=
  match err_msg_list with
  | _ :: _ =>
      {| stdout := print2 "" (Str.join (String Str.newline "") err_msg_list)
                     (String Str.newline "Exiting.");
         ending := Exit 1 |}
  | [] =>
      let out := print1 "" (coverage_ok_line coverage_score) in
      let out := print1 out (lint_ok_line lint_score) in
      let out := print1 out versions_ok_line in
      match good_to_release latest_published_version vs with
      | Raise e => {| stdout := out; ending := Uncaught e |}
      | Ok true => {| stdout := print1 out release_ok_line; ending := Exit 0 |}
      | Ok false => {| stdout := out; ending := Exit 0 |}
      end
  end.

(** The gate evaluator: [main] from line 131 on. *)
Definition evaluate (w : World) (coverage_score lint_score : float) (vs : versions)
  : Run :=
  match checks w coverage_score lint_score vs with
  | Raise e => {| stdout := ""; ending := Uncaught e |}
  | Ok (latest_published_version, err_msg_list) =>
      report coverage_score lint_score vs latest_published_version err_msg_list
  end.

Definition main (w : World) : Run :=
  match get_coverage_score w with
  | Raise e => {| stdout := ""; ending := Uncaught e |}
  | Ok coverage_score =>
      match get_lint_score w with
      | Raise e => {| stdout := ""; ending := Uncaught e |}
      | Ok lint_score =>
          match get_local_versions w with
          | Raise e => {| stdout := ""; ending := Uncaught e |}
          | Ok vs => evaluate w coverage_score lint_score vs
          end
      end
  end.

End Script.

(* ================================================================= *)
(** ** Notions the statements use *)

(** [head] is a whole number of lines: empty, or ended by a newline. *)
Definition line_start (head : string) : Prop :=
  head = "" \/ exists p, head = (p ++ String Str.newline "")%string.

(** [line] is the last non-empty line of [text]: a non-empty stretch
    without a newline that starts a line and is followed by newlines
    only. *)
Definition last_nonempty_line (text line : string) : Prop :=
  nonempty line = true /\ Str.free_of Str.newline line = true /\
  exists head n, line_start head /\ text = (head ++ line ++ Str.newlines n)%string.

(** The numeral [get_lint_score] hands to [float]: the score line without
    the preamble, up to its first space, up to the first slash of that. *)
Definition numeral (score_line : string) : string :=
  Str.before "/" (Str.before " " (Str.replace lint_preamble "" score_line)).

(** The rating pattern in the spec's words, ["Your code has been rated at
    X/10..."]: the preamble, a numeral [X] that [float] reads, and [/10];
    anything may follow. *)
Definition matches_rating_pattern (line : string) : bool :=
  prefix lint_preamble line &&
  (let rest := substring (String.length lint_preamble) (String.length line) line in
   let X := Str.before "/" rest in
   is_ok (PyFloat.of_string X)
   && prefix "/10" (substring (String.length X) (String.length rest) rest)).

(** A changelog line without the section marker. *)
Definition unmarked (line : string) : Prop := Str.contains "##" line = false.

(** The bracketed text in the spec's words: what stands between the
    first ["["] of the line and the first ["]"] after it. *)
Definition bracketed (line : string) : string :=
  Str.before "]" (Str.after "[" line).

(** The messages by kind. *)
Definition is_coverage_msg (msg : string) : bool :=
  prefix "The coverage score " msg.

Definition is_released_msg (msg : string) : bool :=
  (msg =? released_changelog_msg)%string
  || (msg =? released_pypi_config_msg)%string
  || (msg =? released_docs_msg)%string.

(** The messages the release checks can add. *)
Definition release_stage_msgs : list string :=
  [mismatch_msg; released_changelog_msg; released_pypi_config_msg;
   released_docs_msg; dirty_msg].

(** One message when [b] holds. *)
Definition when (b : bool) (msg : string) : list string :=
  if b then [msg] else [].

(** A run that dies on the exception [e] before it has printed
    anything. *)
Definition crash (e : exn) : Run := {| stdout := ""; ending := Uncaught e |}.

(** The three and the four lines of a run without a violation. *)
Definition three_lines (float_str : float -> string)
  (py_round : float -> Z -> float) (c l : float) : string :=
  print1 (print1 (print1 "" (coverage_ok_line float_str py_round c))
            (lint_ok_line float_str py_round l)) versions_ok_line.

Definition four_lines (float_str : float -> string)
  (py_round : float -> Z -> float) (c l : float) : string :=
  print1 (three_lines float_str py_round c l) release_ok_line.

(** [changelog_version == pypi_config_version == docs_version]. *)
Definition version_match (vs : versions) : bool :=
  let '(cv, pv, dv) := vs in eq_opt cv pv && eq_opt pv dv.

(** One of the values the release checks compare is [None]. *)
Definition some_none (latest : option string) (vs : versions) : Prop :=
  let '(cv, pv, dv) := vs in
  latest = None \/ cv = None \/ pv = None \/ dv = None.

(** [line] is the first of [lines] that contains [key]. *)
Definition decides (key : string) (lines : list string) (line : string) : Prop :=
  exists skipped rest,
    lines = (skipped ++ line :: rest)%list
    /\ Forall (fun l => Str.contains key l = false) skipped
    /\ Str.contains key line = true.

(** [m] stands in [line] between the first [a] and the first [b], with
    no [b] before the [a]. *)
Definition between (a b : ascii) (line m : string) : Prop :=
  exists p q,
    line = (p ++ String a (m ++ String b q))%string
    /\ Str.free_of a p = true /\ Str.free_of b p = true
    /\ Str.free_of b m = true.

(** Both scores meet their thresholds. *)
Definition meets_thresholds (c l : float) : bool :=
  (MIN_COVERAGE_SCORE <=? c)%float && (MIN_LINT_SCORE <=? l)%float.

(* ================================================================= *)
(** ** Sample worlds *)

Module Sample.

(** Stand-ins for the section variables: a text for every float, a
    rounding that changes nothing, and parsers that know the documents
    below. *)
Definition float_text (x : float) : string := "#".
Definition no_round (x : float) (ndigits : Z) : float := x.

Definition quoted (s : string) : string :=
  String Str.dquote (s ++ String Str.dquote "").

Definition coverage_text (percent : string) : string :=
  "{" ++ quoted "totals" ++ ": {" ++ quoted "percent_covered" ++ ": "
  ++ percent ++ "}}".

Definition coverage_doc (percent : json) : json :=
  JDict [("totals", JDict [("percent_covered", percent)])].

Definition json_loads (s : string) : result json :=
  if (s =? coverage_text "95.0")%string then Ok (coverage_doc (JFloat 95))
  else if (s =? coverage_text "50.0")%string then Ok (coverage_doc (JFloat 50))
  else if (s =? coverage_text "85")%string then Ok (coverage_doc (JInt 85))
  else Raise JSONDecodeError.

Definition feed_text (version : string) : string :=
  "<rss><channel><title>PyPI recent updates for terrasnek</title><item><title>"
  ++ version ++ "</title></item></channel></rss>".

Definition feed_tree (version : string) : Element :=
  Elem "rss" None
    [Elem "channel" None
       [Elem "title" (Some "PyPI recent updates for terrasnek") [];
        Elem "item" None [Elem "title" (Some version) []]]].

Definition empty_feed_text : string :=
  "<rss><channel><title>PyPI recent updates for terrasnek</title></channel></rss>".

Definition empty_feed_tree : Element :=
  Elem "rss" None
    [Elem "channel" None
       [Elem "title" (Some "PyPI recent updates for terrasnek") []]].

Definition fromstring (s : string) : result Element :=
  if (s =? feed_text "1.3.0")%string then Ok (feed_tree "1.3.0")
  else if (s =? empty_feed_text)%string then Ok empty_feed_tree
  else Raise ParseError.

Definition lint_findings : string :=
  "************* Module terrasnek.api
terrasnek/api.py:1:0: C0114: Missing module docstring (missing-module-docstring)

------------------------------------------------------------------".

Definition lint_text (score_line : string) : string :=
  lint_findings ++ String Str.newline (score_line ++ Str.newlines 2).

Definition rated_915 : string :=
  "Your code has been rated at 9.15/10 (previous run: 9.00/10, +0.15)".

Definition changelog_text (version : string) : string :=
  "# Changelog

## [" ++ version ++ "] - 2021-03-01
- a fix

## [0.1.0] - 2020-01-01
".

Definition setup_text (version : string) : string :=
  "setuptools.setup(
    name=" ++ quoted "terrasnek" ++ ",
    version=" ++ quoted version ++ ",
)
".

Definition conf_text (version : string) : string :=
  "project = 'terrasnek'
release = '" ++ version ++ "'
".

(** The five files of a checkout. *)
Definition files (coverage lint changelog setup conf : string) (path : string)
  : result string :=
  if (path =? "./coverage.tfc.json")%string then Ok coverage
  else if (path =? "./lint_output.txt")%string then Ok lint
  else if (path =? "./CHANGELOG.md")%string then Ok changelog
  else if (path =? "./setup.py")%string then Ok setup
  else if (path =? "./docs/conf.py")%string then Ok conf
  else Raise FileNotFoundError.

Definition clean_repo : Repo := {| diff_worktree := []; diff_head := [] |}.

(** A checkout with coverage [percent], the lint report ending in
    [score_line], the three versions, and the answer of the index. *)
Definition world3 (flag : bool) (percent score_line : string)
  (changelog setup conf : string) (answer : result Response) : World :=
  {| release_check := flag;
     read_text := files (coverage_text percent) (lint_text score_line)
                    (changelog_text changelog) (setup_text setup) (conf_text conf);
     requests_get := fun _ => answer;
     git_Repo := Ok clean_repo |}.

Definition world (flag : bool) (percent score_line version : string)
  (answer : result Response) : World :=
  world3 flag percent score_line version version version answer.

Definition answer_ok (body : string) : result Response :=
  Ok {| status_code := 200; content := body |}.

(** A report whose last line is no rating line. *)
Definition odd_lint : World :=
  world false "95.0" "8.5 out of ten" "1.3.0" (Raise ConnectionError).

(** A changelog whose first section line has a ["]"] before its ["["]. *)
Definition odd_changelog : list string :=
  [String "#" (" Changelog" ++ String Str.newline "");
   String Str.newline "";
   "## v1] [1.0.0]" ++ String Str.newline "";
   "## [0.9.0]" ++ String Str.newline ""].

(** Release checks with the index out of reach, with an answer that is
    no XML, with a feed of one title, and with a feed whose second title
    is 1.3.0 (served with status 404). *)
Definition offline : World :=
  world true "95.0" rated_915 "1.3.0" (Raise ConnectionError).
Definition garbled : World :=
  world true "95.0" rated_915 "1.3.0" (answer_ok "<html>").
Definition no_release_yet : World :=
  world true "50.0" rated_915 "1.3.0" (answer_ok empty_feed_text).
Definition not_found : World :=
  world true "95.0" rated_915 "1.3.0"
    (Ok {| status_code := 404; content := feed_text "1.3.0" |}).

(** A feed at 1.3.0 and a checkout at 1.3.0, at 1.4.0, and one with
    poor coverage; a checkout whose files disagree, without the release
    check. *)
Definition released : World :=
  world true "95.0" rated_915 "1.3.0" (answer_ok (feed_text "1.3.0")).
Definition ahead : World :=
  world true "95.0" rated_915 "1.4.0" (answer_ok (feed_text "1.3.0")).
Definition poor_coverage : World :=
  world true "50.0" rated_915 "1.4.0" (answer_ok (feed_text "1.3.0")).
Definition mismatched : World :=
  world3 false "95.0" rated_915 "1.2.0" "1.2.0" "1.2.1" (Raise ConnectionError).

(** A report with a line of spaces after the rating line. *)
Definition spaced_lint : World :=
  {| release_check := false;
     read_text := files (coverage_text "95.0")
                    (rated_915 ++ String Str.newline ("   " ++ String Str.newline ""))
                    (changelog_text "1.3.0") (setup_text "1.3.0") (conf_text "1.3.0");
     requests_get := fun _ => Raise ConnectionError;
     git_Repo := Ok clean_repo |}.

(** A run without the release check: coverage 95%, lint 9.15. *)
Definition passing : World :=
  world false "95.0" rated_915 "1.3.0" (Raise ConnectionError).

(** A checkout at 1.3.0 with the given coverage document and lint
    report, without the release check. *)
Definition with_reports (coverage lint : string) : World :=
  {| release_check := false;
     read_text := files coverage lint
                    (changelog_text "1.3.0") (setup_text "1.3.0") (conf_text "1.3.0");
     requests_get := fun _ => Raise ConnectionError;
     git_Repo := Ok clean_repo |}.

(** A loader for documents that are not coverage reports. *)
Definition json_loads_any (s : string) : result json :=
  if (s =? "{}")%string then Ok (JDict [])
  else if (s =? "[]")%string then Ok (JList [])
  else if (s =? "NaN")%string then Ok (coverage_doc (JFloat nan))
  else json_loads s.

(** A release check in a tree with one modified file. *)
Definition dirty_tree : World :=
  {| release_check := true;
     read_text := files (coverage_text "95.0") (lint_text rated_915)
                    (changelog_text "1.4.0") (setup_text "1.4.0") (conf_text "1.4.0");
     requests_get := fun _ => answer_ok (feed_text "1.3.0");
     git_Repo := Ok {| diff_worktree := ["setup.py"]; diff_head := [] |} |}.

(** A checkout whose setup.py writes the version in single quotes. *)
Definition single_quoted_setup : World :=
  {| release_check := false;
     read_text := files (coverage_text "95.0") (lint_text rated_915)
                    (changelog_text "1.3.0")
                    ("    version='1.3.0'," ++ String Str.newline "")
                    (conf_text "1.3.0");
     requests_get := fun _ => Raise ConnectionError;
     git_Repo := Ok clean_repo |}.

(** A checkout whose changelog has a section line without brackets. *)
Definition unreleased_heading : World :=
  {| release_check := false;
     read_text := files (coverage_text "95.0") (lint_text rated_915)
                    ("## Unreleased" ++ String Str.newline "")
                    (setup_text "1.3.0") (conf_text "1.3.0");
     requests_get := fun _ => Raise ConnectionError;
     git_Repo := Ok clean_repo |}.

(** A coverage report whose percentage is not a number. *)
Definition nan_coverage : World :=
  with_reports "NaN" (lint_text rated_915).

(** A release check on a changelog without a section line. *)
Definition no_section : World :=
  {| release_check := true;
     read_text := files (coverage_text "95.0") (lint_text rated_915)
                    "# Changelog" (setup_text "1.4.0") (conf_text "1.4.0");
     requests_get := fun _ => answer_ok (feed_text "1.3.0");
     git_Repo := Ok clean_repo |}.

(** A release check on files that disagree. *)
Definition mismatched_release : World :=
  world3 true "95.0" rated_915 "1.4.0" "1.4.0" "1.4.1" (answer_ok (feed_text "1.3.0")).

(** A release check with poor coverage and the index out of reach. *)
Definition offline_poor_coverage : World :=
  world true "50.0" rated_915 "1.3.0" (Raise ConnectionError).

(** A release check with poor coverage outside a git repository. *)
Definition no_repository : World :=
  {| release_check := true;
     read_text := files (coverage_text "50.0") (lint_text rated_915)
                    (changelog_text "1.4.0") (setup_text "1.4.0") (conf_text "1.4.0");
     requests_get := fun _ => answer_ok (feed_text "1.3.0");
     git_Repo := Raise InvalidGitRepositoryError |}.

End Sample.

Arguments get_coverage_score json_loads w : simpl never.
Arguments get_lint_score w : simpl never.

(* ================================================================= *)
(** ** The library functions on small inputs *)

Example split_keeps_empty_pieces :
  Str.split " " "a  b" = ["a"; ""; "b"] /\ Str.split "/" "" = [""].
Proof. split; reflexivity. Qed.

Example replace_is_left_to_right :
  Str.replace "aa" "" "aaa" = "a" /\ Str.replace "X" "" "aXbXXc" = "abc".
Proof. split; reflexivity. Qed.

Example slice_clips :
  Str.slice "abc" 0 (-1) = "ab" /\ Str.slice "abc" 2 1 = ""
  /\ Str.slice "abc" (-5) 2 = "ab" /\ Str.slice "abc" 5 9 = "".
Proof. repeat split; reflexivity. Qed.

Example find_is_minus_one_when_absent :
  Str.find "z" "abc" = -1 /\ Str.find "c" "abc" = 2.
Proof. split; reflexivity. Qed.

Example versions_compare_as_strings :
  Str.ge "1.3.0" "1.3.0" = true /\ Str.ge "1.3.0" "1.4.0" = false
  /\ Str.ge "1.10.0" "1.9.0" = false /\ Str.lt "1.3" "1.3.0" = true.
Proof. repeat split; reflexivity. Qed.

Example float_reads_numerals :
  PyFloat.of_string " 9.15" = Ok 9.15%float
  /\ PyFloat.of_string "1_0" = Ok 10%float
  /\ PyFloat.of_string "1." = Ok 1%float
  /\ PyFloat.of_string "+.5e-3" = Ok 0.0005%float
  /\ PyFloat.of_string "-Infinity" = Ok neg_infinity
  /\ PyFloat.of_string "1e400" = Ok infinity.
Proof. repeat split; vm_compute; reflexivity. Qed.

Example float_rejects :
  map PyFloat.of_string [""; "  "; "."; "1e"; "1_"; "1__0"; "0x10"; "9.15/10"; "1 2"]
  = repeat (Raise ValueError) 9.
Proof. vm_compute. reflexivity. Qed.

Example int_division :
  PyFloat.int_truediv 85 100 = Ok 0.85%float
  /\ PyFloat.int_truediv (10 ^ 400) 100 = Raise OverflowError.
Proof. split; vm_compute; reflexivity. Qed.

Example titles_in_document_order :
  map text (iter "title" (Sample.feed_tree "1.3.0"))
  = [Some "PyPI recent updates for terrasnek"; Some "1.3.0"].
Proof. reflexivity. Qed.

(** A line of spaces is a line for [get_lint_score]: it is not empty, so
    it is the score line, and [float] has nothing to read. *)
Example line_of_spaces_is_the_score_line :
  get_lint_score Sample.spaced_lint = Raise ValueError.
Proof. vm_compute. reflexivity. Qed.

(* ================================================================= *)
(** ** Lemmas on the string methods *)

Module StrFacts.
Import Str.

Lemma split_not_nil (sep : ascii) (s : string) : split sep s <> [].
Proof.
  destruct s as [|c s]; simpl; [discriminate|].
  destruct (Ascii.eqb c sep); [discriminate|].
  destruct (split sep s); discriminate.
Qed.

Lemma item_0_split (sep : ascii) (s : string) :
  item (split sep s) 0 = Ok (hd "" (split sep s)).
Proof.
  pose proof (split_not_nil sep s) as H.
  destruct (split sep s); [contradiction|reflexivity].
Qed.

(** Splitting at a separator that is there: the pieces before it, then
    the pieces after it. *)
Lemma split_app_sep (sep : ascii) (a b : string) :
  split sep (a ++ String sep b) = (split sep a ++ split sep b)%list.
Proof.
  induction a as [|c a IH]; simpl.
  - rewrite Ascii.eqb_refl. reflexivity.
  - destruct (Ascii.eqb c sep); rewrite IH; [reflexivity|].
    pose proof (split_not_nil sep a) as H.
    destruct (split sep a); [contradiction|reflexivity].
Qed.

(** A string without the separator is its own single piece. *)
Lemma split_free (sep : ascii) (s : string) :
  free_of sep s = true -> split sep s = [s].
Proof.
  induction s as [|c s IH]; simpl; [reflexivity|].
  destruct (Ascii.eqb c sep); simpl; [discriminate|].
  intros H. rewrite (IH H). reflexivity.
Qed.

Lemma filter_nonempty_split_newlines (n : nat) :
  filter nonempty (split newline (newlines n)) = [].
Proof.
  induction n as [|n IH]; simpl; [reflexivity|exact IH].
Qed.

Lemma last_item_app (A : Type) (l : list A) (x : A) :
  last_item (l ++ [x])%list = Ok x.
Proof.
  unfold last_item. rewrite rev_app_distr. reflexivity.
Qed.

Lemma app_assoc_string (a b c : string) : ((a ++ b) ++ c = a ++ (b ++ c))%string.
Proof.
  induction a as [|x a IH]; simpl; [reflexivity|now rewrite IH].
Qed.

End StrFacts.

(* ================================================================= *)
(** ** The last non-empty line of a report *)

Module Lines.
Import Str StrFacts.

Lemma append_empty_r (s : string) : (s ++ "")%string = s.
Proof.
  induction s as [|c s IH]; simpl; [reflexivity|now rewrite IH].
Qed.

Lemma filter_split_line_newlines (line : string) (n : nat) :
  nonempty line = true -> free_of newline line = true ->
  filter nonempty (split newline (line ++ newlines n)) = [line].
Proof.
  intros Hne Hfree. destruct n as [|n]; simpl.
  - rewrite append_empty_r, (split_free _ _ Hfree). simpl. now rewrite Hne.
  - rewrite split_app_sep, filter_app, (split_free _ _ Hfree).
    rewrite filter_nonempty_split_newlines. simpl. now rewrite Hne.
Qed.

(** The script's [lint_results_list[-1]] is that line. *)
Lemma last_item_of_text (text line : string) :
  last_nonempty_line text line ->
  last_item (filter nonempty (split newline text)) = Ok line.
Proof.
  intros (Hne & Hfree & head & n & Hhead & ->).
  destruct Hhead as [-> | [p ->]].
  - simpl. rewrite (filter_split_line_newlines _ _ Hne Hfree). reflexivity.
  - rewrite app_assoc_string. simpl.
    rewrite split_app_sep, filter_app.
    rewrite (filter_split_line_newlines _ _ Hne Hfree).
    apply last_item_app.
Qed.

(** A text of newlines only has no such line. *)
Lemma last_item_of_blank (n : nat) :
  last_item (filter nonempty (split newline (newlines n))) = Raise (A:=string) IndexError.
Proof.
  rewrite filter_nonempty_split_newlines. reflexivity.
Qed.

Lemma line_start_cons (c : ascii) (head : string) :
  line_start head -> c = newline \/ head <> "" ->
  line_start (String c head).
Proof.
  intros [-> | [p ->]] Hc.
  - destruct Hc as [-> | Hne]; [|congruence].
    right. exists "". reflexivity.
  - right. exists (String c p). reflexivity.
Qed.

(** Every text is newlines only, or has a last non-empty line. *)
Lemma text_cases (text : string) :
  (exists n, text = newlines n) \/ (exists line, last_nonempty_line text line).
Proof.
  induction text as [|c s IH].
  - left. exists 0%nat. reflexivity.
  - destruct (Ascii.eqb c newline) eqn:Hc.
    + apply Ascii.eqb_eq in Hc. subst c.
      destruct IH as [[n ->] | [line (Hne & Hfree & head & n & Hhead & ->)]].
      * left. exists (S n). reflexivity.
      * right. exists line. repeat split; trivial.
        exists (String newline head), n. split; [|reflexivity].
        apply line_start_cons; auto.
    + destruct IH as [[n ->] | [line (Hne & Hfree & head & n & Hhead & ->)]].
      * right. exists (String c ""). repeat split.
        -- simpl. now rewrite Hc.
        -- exists "", n. split; [now left|reflexivity].
      * right. destruct Hhead as [-> | [p ->]].
        -- exists (String c line). repeat split.
           ++ simpl. now rewrite Hc, Hfree.
           ++ exists "", n. split; [now left|reflexivity].
        -- exists line. repeat split; trivial.
           exists (String c p ++ String newline "")%string, n.
           split; [|reflexivity].
           right. exists (String c p). reflexivity.
Qed.

End Lines.

(* ================================================================= *)
(** ** The report readers *)

Section Readers.

Variable json_loads : string -> result json.

Lemma get_coverage_score_eq (w : World) (text : string) (doc totals v : json) :
  read_text w "./coverage.tfc.json" = Ok text ->
  json_loads text = Ok doc ->
  getitem doc "totals" = Ok totals ->
  getitem totals "percent_covered" = Ok v ->
  get_coverage_score json_loads w = truediv_100 v.
Proof.
  intros Hread Hload Htot Hpc. unfold get_coverage_score.
  rewrite Hread. simpl. rewrite Hload. simpl.
  rewrite Htot. simpl. rewrite Hpc. reflexivity.
Qed.

End Readers.

(** On the percentages 0 to 100 the division of two [int]s is the
    division of their floats. *)
Lemma int_truediv_percent (n : Z) :
  0 <= n <= 100 ->
  PyFloat.int_truediv n 100 = Ok (PyFloat.of_int n / 100)%float.
Proof.
  intros H.
  replace n with (Z.of_nat (Z.to_nat n)) by lia.
  assert (Hk : (Z.to_nat n <= 100)%nat) by lia.
  revert Hk. generalize (Z.to_nat n) as k. clear.
  intros k Hk.
  do 101 (destruct k as [|k]; [vm_compute; reflexivity|]).
  lia.
Qed.

(** C6. For every coverage report whose [totals.percent_covered] holds
    the number [P], [get_coverage_score] returns [P / 100]: the binary64
    quotient when [P] is a float, the float nearest to the quotient when
    [P] is an [int] (for an [int] from 0 to 100 that is [float(P) / 100]). *)
Theorem C6_coverage_score_is_percent_over_100
  (json_loads : string -> result json) (w : World) (text : string)
  (doc totals : json) (v : json) :
  read_text w "./coverage.tfc.json" = Ok text ->
  json_loads text = Ok doc ->
  getitem doc "totals" = Ok totals ->
  getitem totals "percent_covered" = Ok v ->
  (forall P : float, v = JFloat P ->
     get_coverage_score json_loads w = Ok (P / 100)%float) /\
  (forall n : Z, v = JInt n ->
     get_coverage_score json_loads w = PyFloat.int_truediv n 100) /\
  (forall n : Z, v = JInt n -> 0 <= n <= 100 ->
     get_coverage_score json_loads w = Ok (PyFloat.of_int n / 100)%float).
Proof.
  intros Hread Hload Htot Hpc.
  rewrite (get_coverage_score_eq json_loads w text doc totals v Hread Hload Htot Hpc).
  repeat split.
  - intros P ->. reflexivity.
  - intros n ->. reflexivity.
  - intros n -> Hn. simpl. apply int_truediv_percent, Hn.
Qed.

Lemma C6_witness :
  get_coverage_score Sample.json_loads Sample.passing = Ok (95 / 100)%float.
Proof.
  refine (proj1 (C6_coverage_score_is_percent_over_100 Sample.json_loads Sample.passing
            (Sample.coverage_text "95.0") (Sample.coverage_doc (JFloat 95))
            (JDict [("percent_covered", JFloat 95)]) (JFloat 95) _ _ _ _) 95%float _);
    reflexivity.
Defined.

Module LintFacts.
Import Str StrFacts.

Lemma hd_split_before (c : ascii) (s : string) :
  hd "" (split c s) = before c s.
Proof.
  induction s as [|c' s IH]; simpl; [reflexivity|].
  destruct (Ascii.eqb c' c); [reflexivity|].
  pose proof (split_not_nil c s) as H.
  destruct (split c s); [contradiction|]. simpl in *. now rewrite IH.
Qed.

(** [float] fails with [ValueError] only. *)
Lemma of_string_raises (s : string) (e : exn) :
  PyFloat.of_string s = Raise e -> e = ValueError.
Proof.
  unfold PyFloat.of_string, PyFloat.parse.
  destruct (PyFloat.drop_underscores None (PyFloat.spaces_to_ascii s)) as [t|];
    [|intros [= <-]; reflexivity].
  destruct (PyFloat.take_sign _) as [neg body].
  destruct (_ || _); [discriminate|].
  destruct (_ =? _)%string; [discriminate|].
  destruct (PyFloat.take_digits body) as [ip r1].
  destruct (match r1 with EmptyString => _ | String _ _ => _ end) as [fp r2].
  destruct (ip ++ fp)%string; [intros [= <-]; reflexivity|].
  destruct (PyFloat.take_exponent r2) as [ex r3].
  destruct r3; [discriminate|intros [= <-]; reflexivity].
Qed.

(** What [get_lint_score] does with a report once its last non-empty
    line is known. *)
Lemma get_lint_score_of_line (w : World) (text line : string) :
  read_text w "./lint_output.txt" = Ok text ->
  last_nonempty_line text line ->
  get_lint_score w =
    (x <- PyFloat.of_string (numeral line) ;; Ok (x / 10)%float).
Proof.
  intros Hread Hlast. unfold get_lint_score.
  rewrite Hread. simpl.
  rewrite (Lines.last_item_of_text _ _ Hlast). simpl.
  rewrite item_0_split. simpl. rewrite item_0_split. simpl.
  rewrite !hd_split_before. reflexivity.
Qed.

Lemma get_lint_score_blank (w : World) (n : nat) :
  read_text w "./lint_output.txt" = Ok (newlines n) ->
  get_lint_score w = Raise IndexError.
Proof.
  intros Hread. unfold get_lint_score. rewrite Hread. simpl.
  rewrite Lines.last_item_of_blank. reflexivity.
Qed.

End LintFacts.



(** C7 as stated fails: the last non-empty line ["8.5 out of ten"] does
    not match the rating pattern, and [get_lint_score] returns 0.85. *)
Lemma C7_counterexample :
  read_text Sample.odd_lint "./lint_output.txt" = Ok (Sample.lint_text "8.5 out of ten") /\
  last_nonempty_line (Sample.lint_text "8.5 out of ten") "8.5 out of ten" /\
  matches_rating_pattern "8.5 out of ten" = false /\
  get_lint_score Sample.odd_lint = Ok 0.85%float.
Proof.
  split; [reflexivity|]. split; [|split; vm_compute; reflexivity].
  repeat split.
  exists (Sample.lint_findings ++ String Str.newline "")%string, 2%nat.
  split; [|reflexivity].
  right. exists Sample.lint_findings. reflexivity.
Qed.

(** C7, amended. [get_lint_score] fails with [IndexError] when the report
    has no non-empty line, and with [ValueError] when the numeral it
    takes from the last non-empty line (the preamble removed, up to the
    first space, up to the first slash) is not a float literal; in every
    other case it returns that numeral divided by 10; every report is in
    one of these cases.  Neither the preamble nor the [/10] is
    checked. *)
Theorem C7_lint_score_failures (w : World) (text : string) :
  read_text w "./lint_output.txt" = Ok text ->
  ((exists n, text = Str.newlines n) \/ (exists line, last_nonempty_line text line)) /\
  (forall n, text = Str.newlines n -> get_lint_score w = Raise IndexError) /\
  (forall line, last_nonempty_line text line ->
     (is_ok (PyFloat.of_string (numeral line)) = false ->
      get_lint_score w = Raise ValueError) /\
     (forall x, PyFloat.of_string (numeral line) = Ok x ->
      get_lint_score w = Ok (x / 10)%float)).
Proof.
  intros Hread. split; [apply Lines.text_cases|]. split.
  - intros n ->. exact (LintFacts.get_lint_score_blank w n Hread).
  - intros line Hlast.
    rewrite (LintFacts.get_lint_score_of_line w text line Hread Hlast).
    split.
    + destruct (PyFloat.of_string (numeral line)) as [x|e] eqn:E; [discriminate|].
      intros _. simpl. now rewrite (LintFacts.of_string_raises _ _ E).
    + intros x ->. reflexivity.
Qed.

Lemma C7_witness :
  get_lint_score Sample.odd_lint = Ok (8.5 / 10)%float.
Proof.
  refine (proj2 (proj2 (proj2 (C7_lint_score_failures Sample.odd_lint
            (Sample.lint_text "8.5 out of ten") _)) "8.5 out of ten" _) 8.5%float _);
    [reflexivity| |vm_compute; reflexivity].
  repeat split.
  exists (Sample.lint_findings ++ String Str.newline "")%string, 2%nat.
  split; [|reflexivity].
  right. exists Sample.lint_findings. reflexivity.
Defined.

(* ================================================================= *)
(** ** The version collector *)

Module SliceFacts.
Import Str StrFacts.

Lemma length_app (a b : string) :
  String.length (a ++ b) = (String.length a + String.length b)%nat.
Proof.
  induction a as [|c a IH]; simpl; [reflexivity|now rewrite IH].
Qed.

Lemma free_of_app (c : ascii) (a b : string) :
  free_of c (a ++ b) = free_of c a && free_of c b.
Proof.
  induction a as [|x a IH]; simpl; [reflexivity|].
  rewrite IH. now rewrite andb_assoc.
Qed.

Lemma prefix_char (c x : ascii) (s : string) :
  prefix (String c "") (String x s) = Ascii.eqb x c.
Proof.
  simpl. destruct (ascii_dec c x) as [->|Hne].
  - rewrite Ascii.eqb_refl. destruct s; reflexivity.
  - symmetry. apply Ascii.eqb_neq. congruence.
Qed.

(** The first occurrence of a character is found where it is. *)
Lemma find_from_char (c : ascii) (p r : string) (i : Z) :
  free_of c p = true ->
  find_from (String c "") (p ++ String c r) i = i + Z.of_nat (String.length p).
Proof.
  revert i. induction p as [|x p IH]; intros i Hfree.
  - cbn [append find_from]. rewrite prefix_char, Ascii.eqb_refl.
    simpl. lia.
  - simpl in Hfree. apply andb_true_iff in Hfree as [Hx Hp].
    cbn [append find_from]. rewrite prefix_char.
    apply negb_true_iff in Hx. rewrite Hx.
    rewrite (IH (i + 1) Hp). cbn [String.length]. lia.
Qed.

Lemma find_char (c : ascii) (p r : string) :
  free_of c p = true ->
  find (String c "") (p ++ String c r) = Z.of_nat (String.length p).
Proof.
  intros H. unfold find. now rewrite find_from_char.
Qed.

Lemma substring_skip (p s : string) (n : nat) :
  substring (String.length p) n (p ++ s) = substring 0 n s.
Proof.
  induction p as [|c p IH]; simpl; [reflexivity|exact IH].
Qed.

Lemma substring_take (m r : string) :
  substring 0 (String.length m) (m ++ r) = m.
Proof.
  induction m as [|c m IH]; simpl.
  - destruct r; reflexivity.
  - now rewrite IH.
Qed.

Lemma substring_none (n : nat) (s : string) : substring n 0 s = "".
Proof.
  revert n. induction s as [|c s IH]; intros [|n]; simpl; auto.
Qed.

(** The slice between two marks that stand in this order. *)
Lemma slice_between (p m q : string) (a b : ascii) :
  slice (p ++ String a (m ++ String b q))
        (Z.of_nat (String.length p) + 1)
        (Z.of_nat (String.length p) + 1 + Z.of_nat (String.length m)) = m.
Proof.
  unfold slice, clip. rewrite length_app. cbn [String.length].
  rewrite length_app. cbn [String.length].
  set (lp := String.length p). set (lm := String.length m).
  set (lq := String.length q).
  destruct (Z.ltb_spec (Z.of_nat lp + 1) 0); [lia|].
  destruct (Z.ltb_spec (Z.of_nat lp + 1 + Z.of_nat lm) 0); [lia|].
  rewrite !Z.min_l by lia.
  replace (Z.to_nat (Z.of_nat lp + 1)) with (String.length (p ++ String a "")).
  2:{ rewrite length_app. simpl. lia. }
  replace (Z.to_nat _) with lm by lia.
  replace (p ++ String a (m ++ String b q))%string
    with ((p ++ String a "") ++ (m ++ String b q))%string.
  2:{ now rewrite app_assoc_string. }
  rewrite substring_skip. apply substring_take.
Qed.

(** A slice whose end is not after its start is empty. *)
Lemma slice_backwards (s : string) (a b : Z) :
  0 <= b <= a -> slice s a b = "".
Proof.
  intros H. unfold slice, clip.
  destruct (Z.ltb_spec a 0); [lia|]. destruct (Z.ltb_spec b 0); [lia|].
  replace (Z.to_nat (_ - _)) with 0%nat by lia.
  apply substring_none.
Qed.

End SliceFacts.

Module ChangelogFacts.
Import Str StrFacts SliceFacts.

Lemma changelog_loop_none (lines : list string) (v : option string) :
  Forall unmarked lines -> changelog_loop lines v = v.
Proof.
  induction 1 as [|line lines Hline _ IH]; simpl; [reflexivity|].
  unfold unmarked in Hline. now rewrite Hline.
Qed.

Lemma changelog_loop_first (skipped rest : list string) (line : string)
  (v : option string) :
  Forall unmarked skipped -> contains "##" line = true ->
  changelog_loop (skipped ++ line :: rest)%list v =
    Some (strip (slice line (find "[" line + 1) (find "]" line))).
Proof.
  intros Hskip Hline. induction Hskip as [|l ls Hl _ IH]; simpl.
  - now rewrite Hline.
  - unfold unmarked in Hl. now rewrite Hl.
Qed.

(** The brackets in the usual order: the text between them. *)
Lemma slice_in_order (p m q : string) :
  free_of "[" p = true -> free_of "]" p = true -> free_of "]" m = true ->
  let line := (p ++ String "[" (m ++ String "]" q))%string in
  slice line (find "[" line + 1) (find "]" line) = m.
Proof.
  intros Hp1 Hp2 Hm line. subst line.
  rewrite (find_char "[" p _ Hp1).
  replace (p ++ String "[" (m ++ String "]" q))%string
    with ((p ++ String "[" m) ++ String "]" q)%string at 2.
  2:{ rewrite app_assoc_string. reflexivity. }
  rewrite (find_char "]" (p ++ String "[" m) q).
  2:{ rewrite free_of_app. simpl. now rewrite Hp2, Hm. }
  rewrite length_app. cbn [String.length].
  replace (Z.of_nat (String.length p + S (String.length m)))
    with (Z.of_nat (String.length p) + 1 + Z.of_nat (String.length m)) by lia.
  apply slice_between.
Qed.

(** The first ["]"] before the first ["["]: nothing. *)
Lemma slice_out_of_order (p m q : string) :
  free_of "[" p = true -> free_of "]" p = true -> free_of "[" m = true ->
  let line := (p ++ String "]" (m ++ String "[" q))%string in
  slice line (find "[" line + 1) (find "]" line) = "".
Proof.
  intros Hp1 Hp2 Hm line. subst line.
  rewrite (find_char "]" p _ Hp2).
  replace (p ++ String "]" (m ++ String "[" q))%string
    with ((p ++ String "]" m) ++ String "[" q)%string at 2.
  2:{ rewrite app_assoc_string. reflexivity. }
  rewrite (find_char "[" (p ++ String "]" m) q).
  2:{ rewrite free_of_app. simpl. now rewrite Hp1, Hm. }
  rewrite length_app. cbn [String.length].
  apply slice_backwards. lia.
Qed.

Lemma after_char (c : ascii) (p r : string) :
  free_of c p = true -> after c (p ++ String c r) = r.
Proof.
  induction p as [|x p IH]; simpl.
  - now rewrite Ascii.eqb_refl.
  - intros H. apply andb_true_iff in H as [Hx Hp].
    apply negb_true_iff in Hx. rewrite Hx. auto.
Qed.

Lemma before_char (c : ascii) (m r : string) :
  free_of c m = true -> before c (m ++ String c r) = m.
Proof.
  induction m as [|x m IH]; simpl.
  - now rewrite Ascii.eqb_refl.
  - intros H. apply andb_true_iff in H as [Hx Hm].
    apply negb_true_iff in Hx. rewrite Hx. now rewrite IH.
Qed.

Lemma bracketed_in_order (p m q : string) :
  free_of "[" p = true -> free_of "]" m = true ->
  bracketed (p ++ String "[" (m ++ String "]" q)) = m.
Proof.
  intros Hp Hm. unfold bracketed.
  now rewrite (after_char "[" p _ Hp), (before_char "]" m q Hm).
Qed.

Lemma get_local_versions_changelog (w : World) (text : string)
  (cv pv dv : option string) :
  read_text w "./CHANGELOG.md" = Ok text ->
  get_local_versions w = Ok (cv, pv, dv) ->
  cv = changelog_loop (readlines text) None.
Proof.
  intros Hread. unfold get_local_versions. rewrite Hread. simpl.
  destruct (read_text w "./setup.py") as [st|]; simpl; [|discriminate].
  destruct (quoted_loop "version" _ _ _) as [pv'|]; simpl; [|discriminate].
  destruct (read_text w "./docs/conf.py") as [ct|]; simpl; [|discriminate].
  destruct (quoted_loop "release" _ _ _) as [dv'|]; simpl; [|discriminate].
  intros [= <- _ _]. reflexivity.
Qed.

End ChangelogFacts.

(** C8 as stated fails: on the line ["## v1] [1.0.0]"] the text between the
    first ["["] and the first ["]"] after it is ["1.0.0"], and the loop
    returns the empty string. *)
Lemma C8_counterexample :
  Str.strip (bracketed ("## v1] [1.0.0]" ++ String Str.newline "")) = "1.0.0" /\
  changelog_loop Sample.odd_changelog None = Some "".
Proof.
  split; vm_compute; reflexivity.
Qed.

(** C8, amended. The changelog is scanned line by line; nothing is found
    when no line contains ["##"]; the first line that contains it decides,
    whatever follows: the result is the stripped slice of that line from
    just after its first ["["] up to its first ["]"].  When that ["]"]
    comes after the ["["] this is the text between the two; when it comes
    before, the result is the empty string. *)
Theorem C8_changelog_version (w : World) (text : string)
  (cv pv dv : option string) :
  read_text w "./CHANGELOG.md" = Ok text ->
  get_local_versions w = Ok (cv, pv, dv) ->
  (Forall unmarked (Str.readlines text) -> cv = None) /\
  (forall skipped line rest,
     Str.readlines text = (skipped ++ line :: rest)%list ->
     Forall unmarked skipped -> Str.contains "##" line = true ->
     cv = Some (Str.strip
                  (Str.slice line (Str.find "[" line + 1) (Str.find "]" line))) /\
     (forall p m q,
        line = (p ++ String "[" (m ++ String "]" q))%string ->
        Str.free_of "[" p = true -> Str.free_of "]" p = true ->
        Str.free_of "]" m = true ->
        cv = Some (Str.strip m) /\ bracketed line = m) /\
     (forall p m q,
        line = (p ++ String "]" (m ++ String "[" q))%string ->
        Str.free_of "[" p = true -> Str.free_of "]" p = true ->
        Str.free_of "[" m = true ->
        cv = Some "")).
Proof.
  intros Hread Hget.
  rewrite (ChangelogFacts.get_local_versions_changelog w text cv pv dv Hread Hget).
  split.
  - intros H. now apply ChangelogFacts.changelog_loop_none.
  - intros skipped line rest -> Hskip Hline.
    rewrite (ChangelogFacts.changelog_loop_first _ rest _ None Hskip Hline).
    split; [reflexivity|]. split.
    + intros p m q -> Hp1 Hp2 Hm.
      rewrite (ChangelogFacts.slice_in_order p m q Hp1 Hp2 Hm).
      split; [reflexivity|].
      now apply ChangelogFacts.bracketed_in_order.
    + intros p m q -> Hp1 Hp2 Hm.
      now rewrite (ChangelogFacts.slice_out_of_order p m q Hp1 Hp2 Hm).
Qed.

Lemma C8_witness :
  Some "1.3.0" = Some (Str.strip "1.3.0") /\
  bracketed ("## [1.3.0] - 2021-03-01" ++ String Str.newline "") = "1.3.0".
Proof.
  assert (Hget : get_local_versions Sample.passing
                 = Ok (Some "1.3.0", Some "1.3.0", Some "1.3.0"))
    by (vm_compute; reflexivity).
  assert (Hlines : Str.readlines (Sample.changelog_text "1.3.0") =
            ([String "#" (" Changelog" ++ String Str.newline ""); String Str.newline ""]
             ++ ("## [1.3.0] - 2021-03-01" ++ String Str.newline "")%string
             :: skipn 3 (Str.readlines (Sample.changelog_text "1.3.0")))%list)
    by (vm_compute; reflexivity).
  destruct (C8_changelog_version Sample.passing (Sample.changelog_text "1.3.0")
              (Some "1.3.0") (Some "1.3.0") (Some "1.3.0") eq_refl Hget)
    as [_ Hfirst].
  destruct (Hfirst _ _ _ Hlines) as (_ & Hin & _).
  - repeat constructor.
  - vm_compute. reflexivity.
  - exact (Hin "## " "1.3.0" (" - 2021-03-01" ++ String Str.newline "")%string
             eq_refl eq_refl eq_refl eq_refl).
Defined.

(* ================================================================= *)
(** ** The release oracle *)

Section Oracle.

Variable ET_fromstring : string -> result Element.

Lemma title_loop_second (items : list Element) :
  title_loop 0 items None =
    match items with
    | _ :: second :: _ => text second
    | _ => None
    end.
Proof.
  destruct items as [|t0 [|t1 rest]]; reflexivity.
Qed.

Lemma get_pypi_of_tree (w : World) (req : Response) (tree : Element) :
  requests_get w PYPI_XML_URL = Ok req ->
  ET_fromstring (content req) = Ok tree ->
  get_pypi_latest_published_version ET_fromstring w =
    Ok (title_loop 0 (iter "title" tree) None).
Proof.
  intros Hget Hparse. unfold get_pypi_latest_published_version.
  rewrite Hget. simpl. rewrite Hparse. reflexivity.
Qed.

End Oracle.

(** C2 as stated fails: when the request fails, and when the answer is
    not XML, the exception leaves [get_pypi_latest_published_version];
    nothing is returned. *)
Lemma C2_counterexample :
  requests_get Sample.offline PYPI_XML_URL = Raise ConnectionError /\
  get_pypi_latest_published_version Sample.fromstring Sample.offline
    = Raise ConnectionError /\
  Sample.fromstring "<html>" = Raise ParseError /\
  get_pypi_latest_published_version Sample.fromstring Sample.garbled
    = Raise ParseError.
Proof.
  repeat split; vm_compute; reflexivity.
Qed.

(** C2, amended. [get_pypi_latest_published_version] returns [None] when
    the parsed answer has fewer than two [title] elements and the text of
    the second one (index 1) when it has two or more.  It catches
    nothing and does not look at the status of the answer: a request
    that fails raises past the caller, so does a body that is no XML, and
    the body of an answer that is not 2xx is parsed like any other. *)
Theorem C2_latest_published_version
  (ET_fromstring : string -> result Element) (w : World) :
  (forall e, requests_get w PYPI_XML_URL = Raise e ->
     get_pypi_latest_published_version ET_fromstring w = Raise e) /\
  (forall req, requests_get w PYPI_XML_URL = Ok req ->
     (forall e, ET_fromstring (content req) = Raise e ->
        get_pypi_latest_published_version ET_fromstring w = Raise e) /\
     (forall tree, ET_fromstring (content req) = Ok tree ->
        ((List.length (iter "title" tree) < 2)%nat ->
         get_pypi_latest_published_version ET_fromstring w = Ok None) /\
        (forall first second others,
           iter "title" tree = first :: second :: others ->
           get_pypi_latest_published_version ET_fromstring w = Ok (text second)))).
Proof.
  split.
  - intros e H. unfold get_pypi_latest_published_version. now rewrite H.
  - intros req Hget. split.
    + intros e H. unfold get_pypi_latest_published_version.
      rewrite Hget. simpl. now rewrite H.
    + intros tree Hparse.
      rewrite (get_pypi_of_tree ET_fromstring w req tree Hget Hparse).
      rewrite title_loop_second. split.
      * intros Hlen. destruct (iter "title" tree) as [|t0 [|t1 rest]];
          [reflexivity|reflexivity|simpl in Hlen; lia].
      * intros first second others ->. reflexivity.
Qed.

Lemma C2_witness :
  get_pypi_latest_published_version Sample.fromstring Sample.not_found
    = Ok (Some "1.3.0").
Proof.
  destruct (C2_latest_published_version Sample.fromstring Sample.not_found)
    as [_ H].
  destruct (H {| status_code := 404; content := Sample.feed_text "1.3.0" |} eq_refl)
    as [_ Htree].
  destruct (Htree (Sample.feed_tree "1.3.0") eq_refl) as [_ Hsecond].
  exact (Hsecond (Elem "title" (Some "PyPI recent updates for terrasnek") [])
           (Elem "title" (Some "1.3.0") []) [] eq_refl).
Defined.

(* ================================================================= *)
(** ** The gate evaluator *)

Section Gate.

Variable json_loads : string -> result json.
Variable ET_fromstring : string -> result Element.
Variable float_str : float -> string.
Variable py_round : float -> Z -> float.

Local Abbreviation get_pypi := (get_pypi_latest_published_version ET_fromstring).
Local Abbreviation thresholds := (threshold_checks float_str).
Local Abbreviation checks' := (checks ET_fromstring float_str).
Local Abbreviation report' := (report float_str py_round).
Local Abbreviation evaluate' := (evaluate ET_fromstring float_str py_round).
Local Abbreviation main' := (main json_loads ET_fromstring float_str py_round).

Lemma append_if_when (b : bool) (l : list string) (msg : string) :
  append_if b l msg = (l ++ when b msg)%list.
Proof.
  destruct b; simpl; [reflexivity|now rewrite app_nil_r].
Qed.

Lemma thresholds_eq (c l : float) :
  thresholds c l =
    (when (negb (MIN_COVERAGE_SCORE <=? c)%float) (coverage_msg float_str c)
     ++ when (negb (MIN_LINT_SCORE <=? l)%float) (lint_msg float_str l))%list.
Proof.
  unfold threshold_checks. now rewrite !append_if_when.
Qed.

(** The release checks once the index has answered with a version and
    the three files have one. *)
Lemma release_checks_eq (w : World) (r v1 v2 v3 : string) (dirty : bool)
  (err : list string) :
  get_pypi w = Ok (Some r) ->
  has_staged_or_modified_files w = Ok dirty ->
  release_checks ET_fromstring w (Some v1, Some v2, Some v3) err =
    Ok (Some r,
        (err
         ++ when (negb ((v1 =? v2)%string && (v2 =? v3)%string)) mismatch_msg
         ++ when (Str.ge r v1) released_changelog_msg
         ++ when (Str.ge r v2) released_pypi_config_msg
         ++ when (Str.ge r v3) released_docs_msg
         ++ when dirty dirty_msg)%list).
Proof.
  intros Hget Hdirty. unfold release_checks.
  rewrite Hget. cbn [bind py_ge eq_opt]. rewrite Hdirty. cbn [bind].
  rewrite !append_if_when, <- !app_assoc. reflexivity.
Qed.

(** With no version from the index the first comparison raises. *)
Lemma release_checks_none (w : World) (vs : versions) (err : list string) :
  get_pypi w = Ok None ->
  release_checks ET_fromstring w vs err = Raise TypeError.
Proof.
  intros Hget. destruct vs as [[cv pv] dv]. unfold release_checks.
  rewrite Hget. reflexivity.
Qed.

Lemma main_evaluate (w : World) (c l : float) (vs : versions) :
  get_coverage_score json_loads w = Ok c ->
  get_lint_score w = Ok l ->
  get_local_versions w = Ok vs ->
  main' w = evaluate' w c l vs.
Proof.
  intros Hc Hl Hv. unfold main. now rewrite Hc, Hl, Hv.
Qed.

(** When the checks complete, the last condition can be evaluated. *)
Lemma good_to_release_defined (w : World) (c l : float) (vs : versions)
  (latest : option string) (errs : list string) :
  checks' w c l vs = Ok (latest, errs) ->
  exists b, good_to_release latest vs = Ok b.
Proof.
  unfold checks. destruct (release_check w).
  - destruct vs as [[cv pv] dv]. unfold release_checks.
    destruct (get_pypi w) as [latest'|]; cbn [bind]; [|discriminate].
    destruct latest' as [r|]; [|discriminate].
    destruct cv as [v1|]; [|discriminate].
    destruct pv as [v2|]; [|discriminate].
    destruct dv as [v3|]; [|discriminate].
    cbn [bind py_ge].
    destruct (has_staged_or_modified_files w); cbn [bind]; [|discriminate].
    intros [= <- _]. cbn [good_to_release py_lt bind].
    destruct (Str.lt r v1); [|eauto]. destruct (Str.lt r v2); eauto.
  - intros [= <- _]. destruct vs as [[cv pv] dv]. simpl. eauto.
Qed.

Lemma Forall_when (P : string -> Prop) (b : bool) (msg : string) :
  P msg -> Forall P (when b msg).
Proof.
  intros H. destruct b; simpl; auto.
Qed.

(** The release checks only add messages, and only their own. *)
Lemma release_checks_extend (w : World) (vs : versions) (err : list string)
  (latest : option string) (errs : list string) :
  release_checks ET_fromstring w vs err = Ok (latest, errs) ->
  exists extra, errs = (err ++ extra)%list
                /\ Forall (fun m => In m release_stage_msgs) extra.
Proof.
  destruct vs as [[cv pv] dv]. unfold release_checks.
  destruct (get_pypi w) as [r|]; cbn [bind]; [|discriminate].
  destruct (py_ge r cv) as [b1|]; cbn [bind]; [|discriminate].
  destruct (py_ge r pv) as [b2|]; cbn [bind]; [|discriminate].
  destruct (py_ge r dv) as [b3|]; cbn [bind]; [|discriminate].
  destruct (has_staged_or_modified_files w) as [dirty|]; cbn [bind]; [|discriminate].
  intros [= _ <-]. rewrite !append_if_when, <- !app_assoc.
  eexists. split; [reflexivity|].
  repeat (apply Forall_app; split); apply Forall_when; simpl; tauto.
Qed.

Lemma checks_extend (w : World) (c l : float) (vs : versions)
  (latest : option string) (errs : list string) :
  checks' w c l vs = Ok (latest, errs) ->
  exists extra, errs = (thresholds c l ++ extra)%list
                /\ Forall (fun m => In m release_stage_msgs) extra.
Proof.
  unfold checks. destruct (release_check w).
  - apply release_checks_extend.
  - intros [= _ <-]. exists []. now rewrite app_nil_r.
Qed.

Lemma prefix_app (a b : string) : prefix a (a ++ b) = true.
Proof.
  induction a as [|x a IH]; simpl.
  - destruct b; reflexivity.
  - destruct (ascii_dec x x); [exact IH|congruence].
Qed.

Lemma coverage_msg_is_coverage (c : float) :
  is_coverage_msg (coverage_msg float_str c) = true.
Proof.
  apply prefix_app.
Qed.

Lemma lint_msg_not_coverage (l : float) :
  is_coverage_msg (lint_msg float_str l) = false.
Proof.
  reflexivity.
Qed.

Lemma release_stage_not_coverage (extra : list string) :
  Forall (fun m => In m release_stage_msgs) extra ->
  filter is_coverage_msg extra = [].
Proof.
  induction 1 as [|m extra Hm _ IH]; [reflexivity|].
  simpl. rewrite IH.
  simpl in Hm. destruct Hm as [<-|[<-|[<-|[<-|[<-|[]]]]]]; reflexivity.
Qed.

Lemma thresholds_not_released (c l : float) :
  filter is_released_msg (thresholds c l) = [].
Proof.
  rewrite thresholds_eq, filter_app.
  destruct (negb _); destruct (negb _); reflexivity.
Qed.

Lemma report_errors (c l : float) (vs : versions) (latest : option string)
  (errs : list string) :
  errs <> [] ->
  report' c l vs latest errs =
    {| stdout := print2 "" (Str.join (String Str.newline "") errs)
                   (String Str.newline "Exiting.");
       ending := Exit 1 |}.
Proof.
  destruct errs; [contradiction|reflexivity].
Qed.

(** The script catches nothing: an exception of the fetch, or of the
    git query once the four versions have been compared, ends the run
    where it is raised, before anything is printed. *)
Lemma release_checks_fetch_raises (w : World) (vs : versions)
  (err : list string) (e : exn) :
  get_pypi w = Raise e ->
  release_checks ET_fromstring w vs err = Raise e.
Proof.
  intros Hget. destruct vs as [[cv pv] dv]. unfold release_checks.
  rewrite Hget. reflexivity.
Qed.

Lemma release_checks_git_raises (w : World) (r v1 v2 v3 : string)
  (err : list string) (e : exn) :
  get_pypi w = Ok (Some r) ->
  has_staged_or_modified_files w = Raise e ->
  release_checks ET_fromstring w (Some v1, Some v2, Some v3) err = Raise e.
Proof.
  intros Hget Hgit. unfold release_checks.
  rewrite Hget. cbn [bind py_ge]. rewrite Hgit. reflexivity.
Qed.

Lemma evaluate_uncaught (w : World) (c l : float) (vs : versions) (e : exn) :
  release_check w = true ->
  get_pypi w = Raise e
  \/ (exists r v1 v2 v3,
        get_pypi w = Ok (Some r) /\ vs = (Some v1, Some v2, Some v3)
        /\ has_staged_or_modified_files w = Raise e) ->
  evaluate' w c l vs = crash e.
Proof.
  intros Hflag [Hget | (r & v1 & v2 & v3 & Hget & -> & Hgit)];
    unfold evaluate, checks; rewrite Hflag.
  - now rewrite (release_checks_fetch_raises w vs _ e Hget).
  - now rewrite (release_checks_git_raises w r v1 v2 v3 _ e Hget Hgit).
Qed.

Lemma evaluate_errors (w : World) (c l : float) (vs : versions)
  (latest : option string) (errs : list string) :
  checks' w c l vs = Ok (latest, errs) -> errs <> [] ->
  evaluate' w c l vs =
    {| stdout := print2 "" (Str.join (String Str.newline "") errs)
                   (String Str.newline "Exiting.");
       ending := Exit 1 |}.
Proof.
  intros Hchecks Hne. unfold evaluate. rewrite Hchecks.
  now apply report_errors.
Qed.

(** C1. With the release check on and no version from the index
    ([None]), the run does not complete: the comparison of line 159
    raises [TypeError], nothing is printed, and a violation found before
    (here a coverage below the threshold) is not reported. *)
Theorem C1_none_remote_aborts_run (w : World) (c l : float) (vs : versions) :
  get_coverage_score json_loads w = Ok c ->
  get_lint_score w = Ok l ->
  get_local_versions w = Ok vs ->
  release_check w = true ->
  get_pypi w = Ok None ->
  main' w = {| stdout := ""; ending := Uncaught TypeError |}.
Proof.
  intros Hc Hl Hv Hflag Hget.
  rewrite (main_evaluate w c l vs Hc Hl Hv).
  unfold evaluate, checks. rewrite Hflag.
  now rewrite (release_checks_none w vs _ Hget).
Qed.

(** C3, amended. For every run that reads its two scores and the three
    versions and whose checks run to their end with the messages [errs]:
    if there is a message, the messages joined by newlines are printed,
    followed by the notice [Exiting.], and the exit status is 1; if there
    is none, the three confirmation lines are printed (and after them,
    at most, the line on the release) and the exit status is 0.  No
    exception is caught: when a reader, the fetch from the index or the
    git query raises, the run ends there with the exception, and nothing
    is printed, neither the messages produced so far nor a
    confirmation. *)
Theorem C3_exit_behaviour (w : World) :
  (forall c l vs latest errs,
     get_coverage_score json_loads w = Ok c ->
     get_lint_score w = Ok l ->
     get_local_versions w = Ok vs ->
     checks' w c l vs = Ok (latest, errs) ->
     (errs <> [] ->
      main' w =
        {| stdout := (Str.join (String Str.newline "") errs ++ " "
                      ++ String Str.newline "Exiting." ++ String Str.newline "")%string;
           ending := Exit 1 |}) /\
     (errs = [] ->
      let three :=
        print1 (print1 (print1 "" (coverage_ok_line float_str py_round c))
                  (lint_ok_line float_str py_round l)) versions_ok_line in
      ending (main' w) = Exit 0 /\
      (stdout (main' w) = three
       \/ stdout (main' w) = print1 three release_ok_line))) /\
  (forall e,
     get_coverage_score json_loads w = Raise e
     \/ (exists c,
           get_coverage_score json_loads w = Ok c /\ get_lint_score w = Raise e)
     \/ (exists c l,
           get_coverage_score json_loads w = Ok c /\ get_lint_score w = Ok l
           /\ get_local_versions w = Raise e)
     \/ (exists c l vs,
           get_coverage_score json_loads w = Ok c /\ get_lint_score w = Ok l
           /\ get_local_versions w = Ok vs /\ release_check w = true
           /\ (get_pypi w = Raise e
               \/ exists r v1 v2 v3,
                    get_pypi w = Ok (Some r) /\ vs = (Some v1, Some v2, Some v3)
                    /\ has_staged_or_modified_files w = Raise e)) ->
     main' w = crash e).
Proof.
  split.
  - intros c l vs latest errs Hc Hl Hv Hchecks.
    rewrite (main_evaluate w c l vs Hc Hl Hv). split.
    + intros Hne. exact (evaluate_errors w c l vs latest errs Hchecks Hne).
    + intros -> three.
      destruct (good_to_release_defined w c l vs latest [] Hchecks) as [b Hb].
      unfold evaluate. rewrite Hchecks. unfold report. rewrite Hb.
      destruct b; simpl; auto.
  - intros e [Hc | [(c & Hc & Hl) | [(c & l & Hc & Hl & Hv)
                 | (c & l & vs & Hc & Hl & Hv & Hflag & Hraise)]]].
    + unfold main. now rewrite Hc.
    + unfold main. now rewrite Hc, Hl.
    + unfold main. now rewrite Hc, Hl, Hv.
    + rewrite (main_evaluate w c l vs Hc Hl Hv).
      now apply evaluate_uncaught.
Qed.

(** C4, amended. With the release check on, a version [r] from the index
    and the three local versions: the source of [v] gets its "already
    released" message exactly when [r >= v] as strings, that is when the
    local version is less than or equal to the published one.  With all
    four at 1.3.0 there are exactly three such messages, one per
    source. *)
Theorem C4_released_versions (w : World) (c l : float) (v1 v2 v3 r : string)
  (dirty : bool) :
  release_check w = true ->
  get_pypi w = Ok (Some r) ->
  has_staged_or_modified_files w = Ok dirty ->
  exists errs,
    checks' w c l (Some v1, Some v2, Some v3) = Ok (Some r, errs) /\
    filter is_released_msg errs =
      (when (Str.ge r v1) released_changelog_msg
       ++ when (Str.ge r v2) released_pypi_config_msg
       ++ when (Str.ge r v3) released_docs_msg)%list /\
    (v1 = "1.3.0" -> v2 = "1.3.0" -> v3 = "1.3.0" -> r = "1.3.0" ->
     filter is_released_msg errs =
       [released_changelog_msg; released_pypi_config_msg; released_docs_msg]).
Proof.
  intros Hflag Hget Hdirty. unfold checks. rewrite Hflag.
  rewrite (release_checks_eq w r v1 v2 v3 dirty _ Hget Hdirty).
  eexists. split; [reflexivity|].
  assert (Hfilter :
    filter is_released_msg
      (thresholds c l
       ++ when (negb ((v1 =? v2)%string && (v2 =? v3)%string)) mismatch_msg
       ++ when (Str.ge r v1) released_changelog_msg
       ++ when (Str.ge r v2) released_pypi_config_msg
       ++ when (Str.ge r v3) released_docs_msg
       ++ when dirty dirty_msg)%list
    = (when (Str.ge r v1) released_changelog_msg
       ++ when (Str.ge r v2) released_pypi_config_msg
       ++ when (Str.ge r v3) released_docs_msg)%list).
  { rewrite !filter_app, thresholds_not_released.
    destruct (negb _), (Str.ge r v1), (Str.ge r v2), (Str.ge r v3), dirty;
      reflexivity. }
  split; [exact Hfilter|].
  intros -> -> -> ->. rewrite Hfilter. reflexivity.
Qed.

(** C9, amended. With a coverage score of 0.5, whatever the lint score:
    the two threshold checks give the coverage message once, and the
    lint message after it when the lint score is below its threshold
    too; the run never ends with status 0; and when the checks run to
    their end, their list holds exactly one coverage message and every
    message of the threshold checks, all are printed, and the exit
    status is 1.  When the fetch from the index or the git query raises,
    the messages are not printed: the run ends with the exception. *)
Theorem C9_low_coverage (w : World) (l : float) (vs : versions) :
  thresholds 0.5 l =
    coverage_msg float_str 0.5
      :: when (negb (MIN_LINT_SCORE <=? l)%float) (lint_msg float_str l) /\
  List.length (filter is_coverage_msg (thresholds 0.5 l)) = 1%nat /\
  exit_code (ending (evaluate' w 0.5 l vs)) <> 0 /\
  (forall latest errs,
     checks' w 0.5 l vs = Ok (latest, errs) ->
     List.length (filter is_coverage_msg errs) = 1%nat /\
     incl (thresholds 0.5 l) errs /\
     evaluate' w 0.5 l vs =
       {| stdout := print2 "" (Str.join (String Str.newline "") errs)
                      (String Str.newline "Exiting.");
          ending := Exit 1 |}) /\
  (release_check w = true ->
   forall e,
     get_pypi w = Raise e
     \/ (exists r v1 v2 v3,
           get_pypi w = Ok (Some r) /\ vs = (Some v1, Some v2, Some v3)
           /\ has_staged_or_modified_files w = Raise e) ->
     evaluate' w 0.5 l vs = crash e).
Proof.
  assert (Hth : thresholds 0.5 l =
    coverage_msg float_str 0.5
      :: when (negb (MIN_LINT_SCORE <=? l)%float) (lint_msg float_str l)).
  { rewrite thresholds_eq. reflexivity. }
  assert (Hone : List.length (filter is_coverage_msg (thresholds 0.5 l)) = 1%nat).
  { rewrite Hth. cbn [filter]. rewrite coverage_msg_is_coverage.
    destruct (negb _); cbn [when filter];
      [rewrite lint_msg_not_coverage|]; reflexivity. }
  assert (Hdone : forall latest errs,
     checks' w 0.5 l vs = Ok (latest, errs) ->
     List.length (filter is_coverage_msg errs) = 1%nat /\
     incl (thresholds 0.5 l) errs /\
     evaluate' w 0.5 l vs =
       {| stdout := print2 "" (Str.join (String Str.newline "") errs)
                      (String Str.newline "Exiting.");
          ending := Exit 1 |}).
  { intros latest errs Hchecks.
    destruct (checks_extend w 0.5 l vs latest errs Hchecks) as (extra & -> & Hextra).
    split; [|split].
    - rewrite filter_app, (release_stage_not_coverage extra Hextra), app_nil_r.
      exact Hone.
    - apply incl_appl, incl_refl.
    - apply (evaluate_errors w 0.5 l vs latest _ Hchecks).
      rewrite Hth. discriminate. }
  split; [exact Hth|]. split; [exact Hone|]. split; [|split; [exact Hdone|]].
  - destruct (checks' w 0.5 l vs) as [[latest errs]|e] eqn:Hchecks.
    + destruct (Hdone latest errs eq_refl) as (_ & _ & ->). simpl. lia.
    + unfold evaluate. rewrite Hchecks. simpl. lia.
  - intros Hflag e Hraise. now apply evaluate_uncaught.
Qed.

(** C10. Without the release check no run compares the three versions:
    the checks are the two threshold checks, the mismatch message is
    never among their messages, the run is the same for any three
    versions, and when both scores meet their thresholds the three
    confirmation lines are printed, the line on matching versions among
    them, with exit status 0, whatever the three versions are. *)
Theorem C10_versions_unchecked_without_release (w : World) (c l : float)
  (vs : versions) :
  release_check w = false ->
  checks' w c l vs = Ok (None, thresholds c l) /\
  ~ In mismatch_msg (thresholds c l) /\
  (forall vs', evaluate' w c l vs' = evaluate' w c l vs) /\
  ((MIN_COVERAGE_SCORE <=? c)%float = true ->
   (MIN_LINT_SCORE <=? l)%float = true ->
   evaluate' w c l vs =
     {| stdout := print1 (print1 (print1 "" (coverage_ok_line float_str py_round c))
                            (lint_ok_line float_str py_round l)) versions_ok_line;
        ending := Exit 0 |}).
Proof.
  intros Hflag.
  assert (Hchecks : checks' w c l vs = Ok (None, thresholds c l)).
  { unfold checks. now rewrite Hflag. }
  split; [exact Hchecks|]. split.
  - rewrite thresholds_eq. intros Hin. apply in_app_or in Hin.
    destruct Hin as [Hin|Hin];
      [destruct (negb (MIN_COVERAGE_SCORE <=? c)%float)
      |destruct (negb (MIN_LINT_SCORE <=? l)%float)];
      simpl in Hin; try tauto; destruct Hin as [Heq|[]]; discriminate Heq.
  - split.
    + intros vs'. unfold evaluate, checks. rewrite Hflag.
      destruct (thresholds c l); [|reflexivity].
      destruct vs as [[cv pv] dv], vs' as [[cv' pv'] dv']. reflexivity.
    + intros Hc Hl. unfold evaluate. rewrite Hchecks.
      rewrite thresholds_eq, Hc, Hl.
      destruct vs as [[cv pv] dv]. reflexivity.
Qed.

End Gate.

(** The sample runs, evaluated. *)
Lemma sample_scores :
  get_coverage_score Sample.json_loads Sample.released = Ok 0.95%float /\
  get_lint_score Sample.released = Ok 0.915%float /\
  get_coverage_score Sample.json_loads Sample.no_release_yet = Ok 0.5%float /\
  get_lint_score Sample.no_release_yet = Ok 0.915%float /\
  get_coverage_score Sample.json_loads Sample.mismatched = Ok 0.95%float /\
  get_lint_score Sample.mismatched = Ok 0.915%float.
Proof.
  repeat split; vm_compute; reflexivity.
Qed.

Lemma C1_witness :
  main Sample.json_loads Sample.fromstring Sample.float_text Sample.no_round
       Sample.no_release_yet
  = {| stdout := ""; ending := Uncaught TypeError |}.
Proof.
  apply (C1_none_remote_aborts_run Sample.json_loads Sample.fromstring
           Sample.float_text Sample.no_round Sample.no_release_yet
           0.5%float 0.915%float (Some "1.3.0", Some "1.3.0", Some "1.3.0"));
    vm_compute; reflexivity.
Defined.

Lemma C3_witness :
  main Sample.json_loads Sample.fromstring Sample.float_text Sample.no_round
       Sample.released
  = {| stdout :=
         (Str.join (String Str.newline "")
            [released_changelog_msg; released_pypi_config_msg; released_docs_msg]
          ++ " " ++ String Str.newline "Exiting." ++ String Str.newline "")%string;
       ending := Exit 1 |}.
Proof.
  apply (proj1 (C3_exit_behaviour Sample.json_loads Sample.fromstring
                  Sample.float_text Sample.no_round Sample.released)
           0.95%float 0.915%float
           (Some "1.3.0", Some "1.3.0", Some "1.3.0") (Some "1.3.0")
           [released_changelog_msg; released_pypi_config_msg; released_docs_msg]);
    try (vm_compute; reflexivity).
  discriminate.
Defined.

(** C3 as stated fails on runs that do not reach line 176.  With both
    scores above their thresholds and the index out of reach, no
    violation is produced, yet no confirmation line is printed and the
    status is 1; with a coverage of 0.5 the coverage message is produced
    (line 137) and not printed. *)
Lemma C3_counterexample :
  (get_coverage_score Sample.json_loads Sample.offline = Ok 0.95%float /\
   get_lint_score Sample.offline = Ok 0.915%float /\
   threshold_checks Sample.float_text 0.95 0.915 = [] /\
   main Sample.json_loads Sample.fromstring Sample.float_text Sample.no_round
        Sample.offline = crash ConnectionError /\
   exit_code (ending (main Sample.json_loads Sample.fromstring Sample.float_text
                           Sample.no_round Sample.offline)) = 1) /\
  (get_coverage_score Sample.json_loads Sample.offline_poor_coverage
     = Ok 0.5%float /\
   get_lint_score Sample.offline_poor_coverage = Ok 0.915%float /\
   threshold_checks Sample.float_text 0.5 0.915
     = [coverage_msg Sample.float_text 0.5] /\
   main Sample.json_loads Sample.fromstring Sample.float_text Sample.no_round
        Sample.offline_poor_coverage = crash ConnectionError).
Proof.
  repeat (refine (conj _ _)); vm_compute; reflexivity.
Qed.

(** C4 as stated fails: a checkout at 1.4.0 is greater than the published
    1.3.0, and no "already released" message is produced; the run ends
    with status 0. *)
Lemma C4_counterexample :
  Str.ge "1.4.0" "1.3.0" = true /\
  get_local_versions Sample.ahead
    = Ok (Some "1.4.0", Some "1.4.0", Some "1.4.0") /\
  get_pypi_latest_published_version Sample.fromstring Sample.ahead
    = Ok (Some "1.3.0") /\
  checks Sample.fromstring Sample.float_text Sample.ahead 0.95%float 0.915%float
         (Some "1.4.0", Some "1.4.0", Some "1.4.0")
    = Ok (Some "1.3.0", []) /\
  ending (main Sample.json_loads Sample.fromstring Sample.float_text
               Sample.no_round Sample.ahead) = Exit 0.
Proof.
  repeat split; vm_compute; reflexivity.
Qed.

Lemma C4_witness :
  exists errs,
    checks Sample.fromstring Sample.float_text Sample.released
           0.95%float 0.915%float (Some "1.3.0", Some "1.3.0", Some "1.3.0")
      = Ok (Some "1.3.0", errs) /\
    filter is_released_msg errs =
      [released_changelog_msg; released_pypi_config_msg; released_docs_msg].
Proof.
  destruct (C4_released_versions Sample.fromstring Sample.float_text
              Sample.released 0.95%float 0.915%float
              "1.3.0" "1.3.0" "1.3.0" "1.3.0" false)
    as (errs & Hchecks & _ & Hthree);
    [reflexivity|vm_compute; reflexivity|reflexivity|].
  exists errs. split; [exact Hchecks|].
  apply Hthree; reflexivity.
Defined.

Lemma C9_witness :
  exit_code
    (ending (evaluate Sample.fromstring Sample.float_text Sample.no_round
               Sample.poor_coverage 0.5%float 0.915%float
               (Some "1.4.0", Some "1.4.0", Some "1.4.0"))) <> 0 /\
  evaluate Sample.fromstring Sample.float_text Sample.no_round
           Sample.poor_coverage 0.5%float 0.915%float
           (Some "1.4.0", Some "1.4.0", Some "1.4.0")
  = {| stdout := print2 ""
                   (Str.join (String Str.newline "")
                      [coverage_msg Sample.float_text 0.5%float])
                   (String Str.newline "Exiting.");
       ending := Exit 1 |}.
Proof.
  destruct (C9_low_coverage Sample.fromstring Sample.float_text Sample.no_round
              Sample.poor_coverage 0.915%float
              (Some "1.4.0", Some "1.4.0", Some "1.4.0"))
    as (_ & _ & Hexit & Hdone & _).
  split; [exact Hexit|].
  apply (Hdone (Some "1.3.0") [coverage_msg Sample.float_text 0.5%float]).
  vm_compute. reflexivity.
Defined.

(** C9 as stated fails where the run does not reach line 176: outside a
    git repository the coverage message is produced (line 137), the git
    query of line 172 raises, and the run ends without reporting the
    violation it found. *)
Lemma C9_counterexample :
  get_coverage_score Sample.json_loads Sample.no_repository = Ok 0.5%float /\
  get_lint_score Sample.no_repository = Ok 0.915%float /\
  get_local_versions Sample.no_repository
    = Ok (Some "1.4.0", Some "1.4.0", Some "1.4.0") /\
  threshold_checks Sample.float_text 0.5 0.915
    = [coverage_msg Sample.float_text 0.5] /\
  get_pypi_latest_published_version Sample.fromstring Sample.no_repository
    = Ok (Some "1.3.0") /\
  has_staged_or_modified_files Sample.no_repository
    = Raise InvalidGitRepositoryError /\
  main Sample.json_loads Sample.fromstring Sample.float_text Sample.no_round
       Sample.no_repository = crash InvalidGitRepositoryError.
Proof.
  repeat (refine (conj _ _)); vm_compute; reflexivity.
Qed.

Lemma C10_witness :
  get_local_versions Sample.mismatched
    = Ok (Some "1.2.0", Some "1.2.0", Some "1.2.1") /\
  evaluate Sample.fromstring Sample.float_text Sample.no_round Sample.mismatched
           0.95%float 0.915%float (Some "1.2.0", Some "1.2.0", Some "1.2.1")
  = {| stdout :=
         print1 (print1 (print1 ""
                   (coverage_ok_line Sample.float_text Sample.no_round 0.95%float))
                   (lint_ok_line Sample.float_text Sample.no_round 0.915%float))
                versions_ok_line;
       ending := Exit 0 |}.
Proof.
  split; [vm_compute; reflexivity|].
  apply (C10_versions_unchecked_without_release Sample.fromstring
           Sample.float_text Sample.no_round Sample.mismatched
           0.95%float 0.915%float (Some "1.2.0", Some "1.2.0", Some "1.2.1"));
    reflexivity.
Defined.

(* ================================================================= *)
(** ** Further properties of the lint reader *)

Module RatingLine.
Import Str StrFacts.

Lemma prefix_self_app (a b : string) : prefix a (a ++ b) = true.
Proof.
  induction a as [|x a IH]; simpl.
  - destruct b; reflexivity.
  - destruct (ascii_dec x x); [exact IH|congruence].
Qed.

Lemma replace_go_skip (old new a rest : string) :
  replace_go old new (a ++ rest) (String.length a) = replace_go old new rest 0.
Proof.
  induction a as [|x a IH]; [reflexivity|exact IH].
Qed.

(** An occurrence at the head is replaced, and the replacing goes on
    behind it. *)
Lemma replace_go_head (c : ascii) (a new rest : string) :
  replace_go (String c a) new (String c a ++ rest) 0
  = (new ++ replace_go (String c a) new rest 0)%string.
Proof.
  pose proof (prefix_self_app (String c a) rest) as Hpre.
  cbn [append] in *. cbn [replace_go]. rewrite Hpre.
  cbn [String.length]. rewrite Nat.sub_succ, Nat.sub_0_r.
  now rewrite replace_go_skip.
Qed.

Lemma replace_preamble_head (rest : string) :
  replace lint_preamble "" (lint_preamble ++ rest) = replace lint_preamble "" rest.
Proof.
  unfold replace, lint_preamble. apply replace_go_head.
Qed.

(** The preamble cannot start inside a numeral without a space that is
    followed by a slash. *)
Lemma no_preamble_in_numeral (X tail : string) :
  free_of " " X = true ->
  prefix lint_preamble (X ++ String "/" tail) = false.
Proof.
  intros Hfree. unfold lint_preamble.
  do 4 (destruct X as [|c X]; [reflexivity|];
        cbn [append prefix];
        match goal with |- context [ascii_dec ?a c] =>
          destruct (ascii_dec a c) as [<-|_]; [|reflexivity] end;
        cbn [free_of] in Hfree; apply andb_true_iff in Hfree as [_ Hfree]).
  destruct X as [|c X]; [reflexivity|].
  cbn [append prefix].
  destruct (ascii_dec " " c) as [<-|_]; [|reflexivity].
  discriminate Hfree.
Qed.

Lemma replace_numeral (X tail : string) :
  free_of " " X = true ->
  replace_go lint_preamble "" (X ++ String "/" tail) 0
  = (X ++ String "/" (replace_go lint_preamble "" tail 0))%string.
Proof.
  induction X as [|c X IH]; intros Hfree.
  - reflexivity.
  - pose proof (no_preamble_in_numeral (String c X) tail Hfree) as Hno.
    cbn [append] in *. cbn [replace_go]. rewrite Hno.
    cbn [free_of] in Hfree. apply andb_true_iff in Hfree as [_ Hfree].
    now rewrite (IH Hfree).
Qed.

Lemma before_app_free (c : ascii) (a b : string) :
  free_of c a = true -> before c (a ++ b) = (a ++ before c b)%string.
Proof.
  induction a as [|x a IH]; simpl; [reflexivity|].
  intros H. apply andb_true_iff in H as [Hx Ha].
  apply negb_true_iff in Hx. rewrite Hx. now rewrite IH.
Qed.

(** On a rating line the numeral is what stands between the preamble and
    the slash. *)
Lemma numeral_of_rating_line (X tail : string) :
  free_of " " X = true -> free_of "/" X = true ->
  numeral (lint_preamble ++ X ++ String "/" tail) = X.
Proof.
  intros Hsp Hsl. unfold numeral.
  rewrite replace_preamble_head. unfold replace.
  rewrite (replace_numeral X tail Hsp).
  rewrite (before_app_free " " X _ Hsp).
  cbn [before]. change (Ascii.eqb "/" " ") with false. cbv iota.
  now rewrite (ChangelogFacts.before_char "/" X _ Hsl).
Qed.

Lemma newlines_app (n k : nat) :
  (newlines n ++ newlines k)%string = newlines (n + k).
Proof.
  induction n as [|n IH]; simpl; [reflexivity|now rewrite IH].
Qed.

Lemma last_nonempty_line_padded (text line : string) (k : nat) :
  last_nonempty_line text line ->
  last_nonempty_line (text ++ newlines k) line.
Proof.
  intros (Hne & Hfree & head & n & Hhead & ->).
  repeat split; trivial.
  exists head, (n + k)%nat. split; [exact Hhead|].
  now rewrite !app_assoc_string, newlines_app.
Qed.

End RatingLine.

(** X1. On a report whose last non-empty line is the preamble, a numeral
    [X] without a space or a slash, a slash and anything after it,
    [get_lint_score] is [float(X) / 10]: the score when [X] is a float
    literal, [ValueError] when it is not. *)
Theorem X1_rating_line_score (w : World) (text X tail : string) :
  read_text w "./lint_output.txt" = Ok text ->
  last_nonempty_line text (lint_preamble ++ X ++ String "/" tail) ->
  Str.free_of " " X = true -> Str.free_of "/" X = true ->
  get_lint_score w = (x <- PyFloat.of_string X ;; Ok (x / 10)%float).
Proof.
  intros Hread Hlast Hsp Hsl.
  rewrite (LintFacts.get_lint_score_of_line w text _ Hread Hlast).
  now rewrite (RatingLine.numeral_of_rating_line X tail Hsp Hsl).
Qed.

Lemma X1_witness :
  get_lint_score Sample.passing
  = (x <- PyFloat.of_string "9.15" ;; Ok (x / 10)%float).
Proof.
  apply (X1_rating_line_score Sample.passing (Sample.lint_text Sample.rated_915)
           "9.15" "10 (previous run: 9.00/10, +0.15)");
    try reflexivity.
  repeat split.
  exists (Sample.lint_findings ++ String Str.newline "")%string, 2%nat.
  split; [|reflexivity].
  right. exists Sample.lint_findings. reflexivity.
Defined.

(** X2. Empty lines at the end of the lint report do not change what
    [get_lint_score] returns, a score or an error. *)
Theorem X2_trailing_empty_lines (w w' : World) (text : string) (k : nat) :
  read_text w "./lint_output.txt" = Ok text ->
  read_text w' "./lint_output.txt" = Ok (text ++ Str.newlines k)%string ->
  get_lint_score w' = get_lint_score w.
Proof.
  intros Hread Hread'.
  destruct (Lines.text_cases text) as [[n ->] | [line Hlast]].
  - rewrite RatingLine.newlines_app in Hread'.
    rewrite (LintFacts.get_lint_score_blank w n Hread).
    exact (LintFacts.get_lint_score_blank w' _ Hread').
  - rewrite (LintFacts.get_lint_score_of_line w text line Hread Hlast).
    apply (LintFacts.get_lint_score_of_line w' _ line Hread').
    now apply RatingLine.last_nonempty_line_padded.
Qed.

Lemma X2_witness :
  get_lint_score
    (Sample.with_reports (Sample.coverage_text "95.0")
       (Sample.lint_text Sample.rated_915 ++ Str.newlines 3))
  = get_lint_score Sample.passing.
Proof.
  apply (X2_trailing_empty_lines Sample.passing _
           (Sample.lint_text Sample.rated_915) 3); reflexivity.
Defined.

(* ================================================================= *)
(** ** Further properties of the coverage reader *)

Section CoverageErrors.

Variable json_loads : string -> result json.
Variable ET_fromstring : string -> result Element.
Variable float_str : float -> string.
Variable py_round : float -> Z -> float.

Local Abbreviation main' := (main json_loads ET_fromstring float_str py_round).

Lemma main_coverage_crash (w : World) (e : exn) :
  get_coverage_score json_loads w = Raise e -> main' w = crash e.
Proof.
  intros H. unfold main. now rewrite H.
Qed.

(** X3. A coverage report that cannot be used ends the run before any
    check, with nothing printed: the exception of the read or of
    [json.loads] as it is, [KeyError] when the document is a [dict]
    without [totals] or [totals] is a [dict] without [percent_covered],
    [TypeError] when either is not a [dict] or the percentage is not a
    number. *)
Theorem X3_unusable_coverage_report (w : World) :
  (forall e, read_text w "./coverage.tfc.json" = Raise e -> main' w = crash e) /\
  (forall text, read_text w "./coverage.tfc.json" = Ok text ->
     (forall e, json_loads text = Raise e -> main' w = crash e) /\
     (forall doc, json_loads text = Ok doc ->
        (forall d, doc = JDict d -> lookup "totals" d = None ->
           main' w = crash KeyError) /\
        ((forall d, doc <> JDict d) -> main' w = crash TypeError) /\
        (forall totals, getitem doc "totals" = Ok totals ->
           (forall d, totals = JDict d -> lookup "percent_covered" d = None ->
              main' w = crash KeyError) /\
           ((forall d, totals <> JDict d) -> main' w = crash TypeError) /\
           (forall v, getitem totals "percent_covered" = Ok v ->
              (forall x, v <> JFloat x) -> (forall n, v <> JInt n) ->
              (forall b, v <> JBool b) ->
              main' w = crash TypeError)))).
Proof.
  split.
  - intros e H. apply main_coverage_crash.
    unfold get_coverage_score. now rewrite H.
  - intros text Hread. split.
    + intros e H. apply main_coverage_crash.
      unfold get_coverage_score. rewrite Hread. cbn [bind]. now rewrite H.
    + intros doc Hload.
      assert (Hstep : get_coverage_score json_loads w =
                (totals <- getitem doc "totals" ;;
                 percent <- getitem totals "percent_covered" ;;
                 truediv_100 percent)).
      { unfold get_coverage_score. rewrite Hread. cbn [bind]. now rewrite Hload. }
      split; [|split].
      * intros d -> Hnone. apply main_coverage_crash. rewrite Hstep.
        cbn [getitem]. now rewrite Hnone.
      * intros Hnot. apply main_coverage_crash. rewrite Hstep.
        destruct doc; try reflexivity. now destruct (Hnot d).
      * intros totals Htot. rewrite Htot in Hstep. cbn [bind] in Hstep.
        split; [|split].
        -- intros d -> Hnone. apply main_coverage_crash. rewrite Hstep.
           cbn [getitem]. now rewrite Hnone.
        -- intros Hnot. apply main_coverage_crash. rewrite Hstep.
           destruct totals; try reflexivity. now destruct (Hnot d).
        -- intros v Hv Hx Hn Hb. apply main_coverage_crash. rewrite Hstep, Hv.
           cbn [bind]. destruct v; try reflexivity.
           ++ now destruct (Hb b).
           ++ now destruct (Hn n).
           ++ now destruct (Hx x).
Qed.

End CoverageErrors.

Lemma X3_witness :
  main Sample.json_loads_any Sample.fromstring Sample.float_text Sample.no_round
       (Sample.with_reports "{}" (Sample.lint_text Sample.rated_915))
  = crash KeyError.
Proof.
  destruct (X3_unusable_coverage_report Sample.json_loads_any Sample.fromstring
              Sample.float_text Sample.no_round
              (Sample.with_reports "{}" (Sample.lint_text Sample.rated_915)))
    as [_ H].
  destruct (H "{}" eq_refl) as [_ Hdoc].
  destruct (Hdoc (JDict []) eq_refl) as [Hkey _].
  exact (Hkey [] eq_refl eq_refl).
Defined.

(** The threshold of 0.8 on the whole percentages. *)
Lemma coverage_threshold_percent (n : Z) :
  0 <= n <= 100 ->
  (MIN_COVERAGE_SCORE <=? PyFloat.of_int n / 100)%float = (80 <=? n).
Proof.
  intros H.
  replace n with (Z.of_nat (Z.to_nat n)) by lia.
  assert (Hk : (Z.to_nat n <= 100)%nat) by lia.
  revert Hk. generalize (Z.to_nat n) as k. clear.
  intros k Hk.
  do 101 (destruct k as [|k]; [vm_compute; reflexivity|]).
  lia.
Qed.

(** X4. For a whole percentage [n] from 0 to 100 in the coverage report,
    written as an [int] or as a float, the coverage score is returned
    and meets the threshold exactly when [n >= 80]: the division by 100
    and the comparison with 0.8 in binary64 misplace no whole
    percentage, and 80 itself passes. *)
Theorem X4_whole_percentages
  (json_loads : string -> result json) (w : World) (text : string)
  (doc totals v : json) (n : Z) :
  read_text w "./coverage.tfc.json" = Ok text ->
  json_loads text = Ok doc ->
  getitem doc "totals" = Ok totals ->
  getitem totals "percent_covered" = Ok v ->
  0 <= n <= 100 ->
  v = JInt n \/ v = JFloat (PyFloat.of_int n) ->
  exists c, get_coverage_score json_loads w = Ok c
            /\ (MIN_COVERAGE_SCORE <=? c)%float = (80 <=? n).
Proof.
  intros Hread Hload Htot Hpc Hn Hv.
  rewrite (get_coverage_score_eq json_loads w text doc totals v Hread Hload Htot Hpc).
  exists (PyFloat.of_int n / 100)%float. split.
  - destruct Hv as [-> | ->]; simpl; [|reflexivity].
    apply int_truediv_percent, Hn.
  - apply coverage_threshold_percent, Hn.
Qed.

Lemma X4_witness :
  exists c,
    get_coverage_score Sample.json_loads
      (Sample.with_reports (Sample.coverage_text "85") (Sample.lint_text Sample.rated_915))
    = Ok c
    /\ (MIN_COVERAGE_SCORE <=? c)%float = (80 <=? 85).
Proof.
  apply (X4_whole_percentages Sample.json_loads _ (Sample.coverage_text "85")
           (Sample.coverage_doc (JInt 85)) (JDict [("percent_covered", JInt 85)])
           (JInt 85) 85); try reflexivity; [lia|now left].
Defined.

(* ================================================================= *)
(** ** Which runs pass *)

Lemma ge_false_lt (r v : string) : Str.ge r v = false <-> Str.lt r v = true.
Proof.
  unfold Str.ge, Str.lt, String.leb, String.ltb.
  rewrite (String.compare_antisym r v).
  destruct (String.compare v r); simpl; split; congruence.
Qed.

Lemma when_nil (b : bool) (msg : string) : when b msg = [] <-> b = false.
Proof.
  destruct b; simpl; split; congruence.
Qed.

Lemma length_ltb_nil (A : Type) (l : list A) :
  Nat.ltb 0 (List.length l) = false <-> l = [].
Proof.
  destruct l as [|a l]; split; intros H; try reflexivity; discriminate.
Qed.

Section Passing.

Variable json_loads : string -> result json.
Variable ET_fromstring : string -> result Element.
Variable float_str : float -> string.
Variable py_round : float -> Z -> float.

Local Abbreviation get_pypi := (get_pypi_latest_published_version ET_fromstring).
Local Abbreviation thresholds := (threshold_checks float_str).
Local Abbreviation checks' := (checks ET_fromstring float_str).
Local Abbreviation evaluate' := (evaluate ET_fromstring float_str py_round).
Local Abbreviation main' := (main json_loads ET_fromstring float_str py_round).

Lemma thresholds_nil (c l : float) :
  thresholds c l = [] <-> meets_thresholds c l = true.
Proof.
  rewrite thresholds_eq. unfold meets_thresholds.
  destruct (MIN_COVERAGE_SCORE <=? c)%float, (MIN_LINT_SCORE <=? l)%float;
    simpl; split; congruence.
Qed.

(** A run ends with status 0 exactly when its checks complete without a
    message. *)
Lemma evaluate_exit_0 (w : World) (c l : float) (vs : versions) :
  ending (evaluate' w c l vs) = Exit 0 <->
  exists latest, checks' w c l vs = Ok (latest, []).
Proof.
  split.
  - unfold evaluate.
    destruct (checks' w c l vs) as [[latest errs]|e]; [|discriminate].
    destruct errs; [eauto|discriminate].
  - intros [latest Hchecks].
    destruct (good_to_release_defined ET_fromstring float_str w c l vs latest []
                Hchecks) as [b Hb].
    unfold evaluate. rewrite Hchecks. unfold report. rewrite Hb.
    destruct b; reflexivity.
Qed.

Lemma has_staged_false (w : World) :
  has_staged_or_modified_files w = Ok false <->
  exists repo, git_Repo w = Ok repo
               /\ diff_worktree repo = [] /\ diff_head repo = [].
Proof.
  unfold has_staged_or_modified_files.
  destruct (git_Repo w) as [repo|e]; cbn [bind].
  - split.
    + intros [= H]. apply orb_false_iff in H as [H1 H2].
      apply length_ltb_nil in H1, H2. eauto.
    + intros (repo' & [= <-] & H1 & H2). rewrite H1, H2. reflexivity.
  - split; [discriminate|]. intros (repo & H & _). discriminate.
Qed.

(** The release checks complete without a message exactly when the index
    gives a version below the one the three files share, the tree is
    clean and nothing was collected before. *)
Lemma release_checks_clean (w : World) (vs : versions) (err : list string)
  (latest : option string) :
  release_checks ET_fromstring w vs err = Ok (latest, []) <->
  err = [] /\
  exists v r, vs = (Some v, Some v, Some v) /\ latest = Some r
              /\ get_pypi w = Ok (Some r) /\ Str.lt r v = true
              /\ has_staged_or_modified_files w = Ok false.
Proof.
  split.
  - destruct vs as [[cv pv] dv]. unfold release_checks.
    destruct (get_pypi w) as [[r|]|]; cbn [bind py_ge]; try discriminate.
    destruct cv as [v1|]; [|discriminate].
    destruct pv as [v2|]; [|discriminate].
    destruct dv as [v3|]; [|discriminate].
    cbn [bind]. destruct (has_staged_or_modified_files w) as [dirty|];
      cbn [bind]; [|discriminate].
    rewrite !append_if_when. intros [= <- H].
    repeat (apply app_eq_nil in H; destruct H as [H ?]).
    repeat match goal with Hw : when _ _ = [] |- _ => apply when_nil in Hw end.
    split; [assumption|].
    match goal with Hm : negb _ = false |- _ =>
      apply negb_false_iff, andb_true_iff in Hm; destruct Hm as [E1 E2] end.
    apply String.eqb_eq in E1, E2. subst v2 v3.
    exists v1, r. repeat split; trivial.
    + now apply ge_false_lt.
    + now subst dirty.
  - intros (-> & v & r & -> & -> & Hget & Hlt & Hclean).
    rewrite (release_checks_eq ET_fromstring w r v v v false [] Hget Hclean).
    rewrite String.eqb_refl. apply ge_false_lt in Hlt. rewrite Hlt. reflexivity.
Qed.

Lemma good_to_release_below (r v : string) :
  Str.lt r v = true ->
  good_to_release (Some r) (Some v, Some v, Some v) = Ok true.
Proof.
  intros H. cbn [good_to_release py_lt bind]. now rewrite !H.
Qed.

(** X5. Without the release check a run ends with status 0 exactly when
    the five files can be read, the two scores and the three versions
    can be taken from them, and both scores meet their thresholds; it
    then prints the three confirmation lines and nothing else.  The
    versions have to be readable, they do not have to agree. *)
Theorem X5_passing_without_release_check (w : World) :
  release_check w = false ->
  (ending (main' w) = Exit 0 <->
   exists c l vs,
     get_coverage_score json_loads w = Ok c /\ get_lint_score w = Ok l
     /\ get_local_versions w = Ok vs /\ meets_thresholds c l = true) /\
  (forall c l vs,
     get_coverage_score json_loads w = Ok c -> get_lint_score w = Ok l ->
     get_local_versions w = Ok vs -> meets_thresholds c l = true ->
     main' w = {| stdout := three_lines float_str py_round c l; ending := Exit 0 |}).
Proof.
  intros Hflag.
  assert (Hpass : forall c l vs,
     get_coverage_score json_loads w = Ok c -> get_lint_score w = Ok l ->
     get_local_versions w = Ok vs -> meets_thresholds c l = true ->
     main' w = {| stdout := three_lines float_str py_round c l; ending := Exit 0 |}).
  { intros c l vs Hc Hl Hv Hmeets.
    rewrite (main_evaluate json_loads ET_fromstring float_str py_round w c l vs Hc Hl Hv).
    unfold meets_thresholds in Hmeets. apply andb_true_iff in Hmeets as [H1 H2].
    now apply (C10_versions_unchecked_without_release ET_fromstring float_str
                 py_round w c l vs Hflag). }
  split; [|exact Hpass]. split.
  - unfold main.
    destruct (get_coverage_score json_loads w) as [c|]; [|discriminate].
    destruct (get_lint_score w) as [l|]; [|discriminate].
    destruct (get_local_versions w) as [vs|]; [|discriminate].
    intros H. apply evaluate_exit_0 in H as [latest H].
    unfold checks in H. rewrite Hflag in H. injection H as _ H.
    apply thresholds_nil in H. exists c, l, vs. auto.
  - intros (c & l & vs & Hc & Hl & Hv & Hmeets).
    now rewrite (Hpass c l vs Hc Hl Hv Hmeets).
Qed.

(** X6. With the release check a run ends with status 0 exactly when the
    scores and versions can be read, both scores meet their thresholds,
    the three versions are one and the same string, the index gives a
    version strictly below it (as strings), and the git tree has no
    modified and no staged file; it then prints the three confirmation
    lines and the line on the release. *)
Theorem X6_passing_with_release_check (w : World) :
  release_check w = true ->
  (ending (main' w) = Exit 0 <->
   exists c l v r repo,
     get_coverage_score json_loads w = Ok c /\ get_lint_score w = Ok l
     /\ get_local_versions w = Ok (Some v, Some v, Some v)
     /\ meets_thresholds c l = true
     /\ get_pypi w = Ok (Some r) /\ Str.lt r v = true
     /\ git_Repo w = Ok repo /\ diff_worktree repo = [] /\ diff_head repo = []) /\
  (forall c l v r repo,
     get_coverage_score json_loads w = Ok c -> get_lint_score w = Ok l ->
     get_local_versions w = Ok (Some v, Some v, Some v) ->
     meets_thresholds c l = true ->
     get_pypi w = Ok (Some r) -> Str.lt r v = true ->
     git_Repo w = Ok repo -> diff_worktree repo = [] -> diff_head repo = [] ->
     main' w = {| stdout := four_lines float_str py_round c l; ending := Exit 0 |}).
Proof.
  intros Hflag.
  assert (Hpass : forall c l v r repo,
     get_coverage_score json_loads w = Ok c -> get_lint_score w = Ok l ->
     get_local_versions w = Ok (Some v, Some v, Some v) ->
     meets_thresholds c l = true ->
     get_pypi w = Ok (Some r) -> Str.lt r v = true ->
     git_Repo w = Ok repo -> diff_worktree repo = [] -> diff_head repo = [] ->
     main' w = {| stdout := four_lines float_str py_round c l; ending := Exit 0 |}).
  { intros c l v r repo Hc Hl Hv Hmeets Hget Hlt Hrepo Hw Hh.
    rewrite (main_evaluate json_loads ET_fromstring float_str py_round w c l _ Hc Hl Hv).
    assert (Hclean : has_staged_or_modified_files w = Ok false)
      by (apply has_staged_false; eauto).
    assert (Hchecks : checks' w c l (Some v, Some v, Some v) = Ok (Some r, [])).
    { unfold checks. rewrite Hflag. apply release_checks_clean.
      split; [now apply thresholds_nil|].
      exists v, r. repeat split; trivial. }
    unfold evaluate. rewrite Hchecks. unfold report.
    now rewrite (good_to_release_below r v Hlt). }
  split.
  - split.
    + unfold main.
      destruct (get_coverage_score json_loads w) as [c|]; [|discriminate].
      destruct (get_lint_score w) as [l|]; [|discriminate].
      destruct (get_local_versions w) as [vs|]; [|discriminate].
      intros H. apply evaluate_exit_0 in H as [latest H].
      unfold checks in H. rewrite Hflag in H.
      apply release_checks_clean in H
        as (Hth & v & r & -> & -> & Hget & Hlt & Hclean).
      apply thresholds_nil in Hth.
      apply has_staged_false in Hclean as (repo & Hrepo & Hw & Hh).
      exists c, l, v, r, repo. repeat split; trivial.
    + intros (c & l & v & r & repo & Hc & Hl & Hv & Hm & Hget & Hlt & Hrepo & Hw & Hh).
      now rewrite (Hpass c l v r repo Hc Hl Hv Hm Hget Hlt Hrepo Hw Hh).
  - exact Hpass.
Qed.

End Passing.

Lemma X5_witness :
  main Sample.json_loads Sample.fromstring Sample.float_text Sample.no_round
       Sample.mismatched
  = {| stdout := three_lines Sample.float_text Sample.no_round 0.95%float 0.915%float;
       ending := Exit 0 |}.
Proof.
  apply (proj2 (X5_passing_without_release_check Sample.json_loads Sample.fromstring
                  Sample.float_text Sample.no_round Sample.mismatched eq_refl)
           0.95%float 0.915%float (Some "1.2.0", Some "1.2.0", Some "1.2.1"));
    vm_compute; reflexivity.
Defined.

Lemma X6_witness :
  main Sample.json_loads Sample.fromstring Sample.float_text Sample.no_round
       Sample.ahead
  = {| stdout := four_lines Sample.float_text Sample.no_round 0.95%float 0.915%float;
       ending := Exit 0 |}.
Proof.
  apply (proj2 (X6_passing_with_release_check Sample.json_loads Sample.fromstring
                  Sample.float_text Sample.no_round Sample.ahead eq_refl)
           0.95%float 0.915%float "1.4.0" "1.3.0" Sample.clean_repo);
    vm_compute; reflexivity.
Defined.

(* ================================================================= *)
(** ** What the release checks report *)

Section ReleaseReport.

Variable ET_fromstring : string -> result Element.
Variable float_str : float -> string.
Variable py_round : float -> Z -> float.

Local Abbreviation get_pypi := (get_pypi_latest_published_version ET_fromstring).
Local Abbreviation thresholds := (threshold_checks float_str).
Local Abbreviation checks' := (checks ET_fromstring float_str).
Local Abbreviation evaluate' := (evaluate ET_fromstring float_str py_round).

(** The list of a release check that completes. *)
Lemma release_checks_complete (w : World) (c l : float) (vs : versions)
  (latest : option string) (errs : list string) :
  release_check w = true ->
  checks' w c l vs = Ok (latest, errs) ->
  exists r v1 v2 v3 dirty,
    vs = (Some v1, Some v2, Some v3) /\ latest = Some r
    /\ get_pypi w = Ok (Some r)
    /\ has_staged_or_modified_files w = Ok dirty
    /\ errs = (thresholds c l
               ++ when (negb (version_match vs)) mismatch_msg
               ++ when (Str.ge r v1) released_changelog_msg
               ++ when (Str.ge r v2) released_pypi_config_msg
               ++ when (Str.ge r v3) released_docs_msg
               ++ when dirty dirty_msg)%list.
Proof.
  intros Hflag. unfold checks. rewrite Hflag.
  destruct vs as [[cv pv] dv]. unfold release_checks.
  destruct (get_pypi w) as [[r|]|] eqn:Hget; cbn [bind py_ge]; try discriminate.
  destruct cv as [v1|]; [|discriminate].
  destruct pv as [v2|]; [|discriminate].
  destruct dv as [v3|]; [|discriminate].
  cbn [bind].
  destruct (has_staged_or_modified_files w) as [dirty|] eqn:Hdirty;
    cbn [bind]; [|discriminate].
  intros [= <- <-]. exists r, v1, v2, v3, dirty.
  repeat split; trivial.
  rewrite !append_if_when, <- !app_assoc. reflexivity.
Qed.

Lemma mismatch_not_threshold (c l : float) : ~ In mismatch_msg (thresholds c l).
Proof.
  rewrite thresholds_eq. intros Hin. apply in_app_or in Hin.
  destruct Hin as [Hin|Hin];
    [destruct (negb (MIN_COVERAGE_SCORE <=? c)%float)
    |destruct (negb (MIN_LINT_SCORE <=? l)%float)];
    simpl in Hin; try tauto; destruct Hin as [Heq|[]]; discriminate Heq.
Qed.

Lemma errs_exit_1 (w : World) (c l : float) (vs : versions)
  (latest : option string) (errs : list string) :
  checks' w c l vs = Ok (latest, errs) -> errs <> [] ->
  ending (evaluate' w c l vs) = Exit 1.
Proof.
  intros Hchecks Hne.
  now rewrite (evaluate_errors ET_fromstring float_str py_round
                 w c l vs latest errs Hchecks Hne).
Qed.

Lemma never_exit_0 (w : World) (c l : float) (vs : versions) :
  (forall latest errs, checks' w c l vs = Ok (latest, errs) -> errs <> []) ->
  ending (evaluate' w c l vs) <> Exit 0.
Proof.
  intros H Hexit.
  apply (evaluate_exit_0 ET_fromstring float_str py_round) in Hexit
    as [latest Hchecks].
  now apply (H latest [] Hchecks).
Qed.

(** X7. A release check in a git tree with a modified or a staged file
    never ends with status 0: when the checks complete, the message on
    staged or modified files is the last of the list and the status
    is 1. *)
Theorem X7_dirty_tree_never_passes (w : World) (repo : Repo) (c l : float)
  (vs : versions) :
  release_check w = true ->
  git_Repo w = Ok repo ->
  diff_worktree repo <> [] \/ diff_head repo <> [] ->
  ending (evaluate' w c l vs) <> Exit 0 /\
  (forall latest errs,
     checks' w c l vs = Ok (latest, errs) ->
     (exists before, errs = (before ++ [dirty_msg])%list)
     /\ ending (evaluate' w c l vs) = Exit 1).
Proof.
  intros Hflag Hrepo Hdirty.
  assert (Hstaged : has_staged_or_modified_files w = Ok true).
  { unfold has_staged_or_modified_files. rewrite Hrepo. cbn [bind]. f_equal.
    destruct (diff_worktree repo), (diff_head repo); try reflexivity.
    destruct Hdirty; congruence. }
  assert (Hlast : forall latest errs,
     checks' w c l vs = Ok (latest, errs) ->
     exists before, errs = (before ++ [dirty_msg])%list).
  { intros latest errs Hchecks.
    destruct (release_checks_complete w c l vs latest errs Hflag Hchecks)
      as (r & v1 & v2 & v3 & dirty & _ & _ & _ & Hd & ->).
    rewrite Hstaged in Hd. injection Hd as <-.
    eexists. rewrite !app_assoc. reflexivity. }
  split.
  - apply never_exit_0. intros latest errs Hchecks.
    destruct (Hlast latest errs Hchecks) as [before ->].
    now destruct before.
  - intros latest errs Hchecks. split; [now apply (Hlast latest)|].
    apply (errs_exit_1 w c l vs latest errs Hchecks).
    destruct (Hlast latest errs Hchecks) as [before ->].
    now destruct before.
Qed.

(** X8. When a release check completes, the message on versions that do
    not match is in the list exactly when the three versions are not one
    and the same string; with it the status is 1. *)
Theorem X8_mismatch_reported (w : World) (c l : float) (vs : versions)
  (latest : option string) (errs : list string) :
  release_check w = true ->
  checks' w c l vs = Ok (latest, errs) ->
  (In mismatch_msg errs <-> version_match vs = false) /\
  (version_match vs = false -> ending (evaluate' w c l vs) = Exit 1).
Proof.
  intros Hflag Hchecks.
  destruct (release_checks_complete w c l vs latest errs Hflag Hchecks)
    as (r & v1 & v2 & v3 & dirty & Hvs & _ & _ & _ & Herrs).
  assert (Hiff : In mismatch_msg errs <-> version_match vs = false).
  { rewrite Herrs. split.
    - intros Hin. apply in_app_or in Hin as [Hin|Hin];
        [now apply mismatch_not_threshold in Hin|].
      destruct (version_match vs); [|reflexivity].
      exfalso. cbn [negb when app] in Hin.
      destruct (Str.ge r v1), (Str.ge r v2), (Str.ge r v3), dirty;
        simpl in Hin; intuition discriminate.
    - intros ->. apply in_or_app. right. now left. }
  split; [exact Hiff|].
  intros Hno. apply (errs_exit_1 w c l vs latest errs Hchecks).
  apply Hiff in Hno. intros ->. exact Hno.
Qed.

(** X9. In a release check where the index has answered and the git
    tree can be inspected, the run dies of [TypeError] exactly when the
    version from the index or one of the three local versions is [None];
    it has then printed nothing. *)
Theorem X9_none_version_is_a_type_error (w : World) (c l : float)
  (vs : versions) (latest : option string) (repo : Repo) :
  release_check w = true ->
  get_pypi w = Ok latest ->
  git_Repo w = Ok repo ->
  (ending (evaluate' w c l vs) = Uncaught TypeError <-> some_none latest vs) /\
  (some_none latest vs -> evaluate' w c l vs = crash TypeError).
Proof.
  intros Hflag Hget Hrepo.
  assert (Hcrash : some_none latest vs -> evaluate' w c l vs = crash TypeError).
  { destruct vs as [[cv pv] dv]. unfold some_none, evaluate, checks, release_checks.
    rewrite Hflag, Hget. cbn [bind].
    destruct latest as [r|], cv as [v1|], pv as [v2|], dv as [v3|];
      try reflexivity.
    intros [H|[H|[H|H]]]; discriminate. }
  split; [|exact Hcrash]. split.
  - destruct vs as [[cv pv] dv]. unfold some_none.
    destruct latest as [r|]; [|auto].
    destruct cv as [v1|]; [|auto].
    destruct pv as [v2|]; [|auto].
    destruct dv as [v3|]; [|auto].
    assert (Hd : exists dirty, has_staged_or_modified_files w = Ok dirty).
    { unfold has_staged_or_modified_files. rewrite Hrepo. cbn [bind]. eauto. }
    destruct Hd as [dirty Hd].
    unfold evaluate, checks. rewrite Hflag.
    rewrite (release_checks_eq ET_fromstring w r v1 v2 v3 dirty _ Hget Hd).
    unfold report.
    match goal with |- context [match ?L with [] => _ | _ :: _ => _ end] =>
      destruct L end; [|discriminate].
    cbn [good_to_release py_lt bind].
    destruct (Str.lt r v1); [|discriminate].
    destruct (Str.lt r v2); [|discriminate].
    destruct (Str.lt r v3); discriminate.
  - intros H. now rewrite (Hcrash H).
Qed.

End ReleaseReport.

Lemma X7_witness :
  ending (evaluate Sample.fromstring Sample.float_text Sample.no_round
            Sample.dirty_tree 0.95%float 0.915%float
            (Some "1.4.0", Some "1.4.0", Some "1.4.0")) <> Exit 0.
Proof.
  apply (X7_dirty_tree_never_passes Sample.fromstring Sample.float_text
           Sample.no_round Sample.dirty_tree
           {| diff_worktree := ["setup.py"]; diff_head := [] |});
    [reflexivity|reflexivity|left; discriminate].
Defined.

Lemma X8_witness :
  In mismatch_msg [mismatch_msg] <->
  version_match (Some "1.4.0", Some "1.4.0", Some "1.4.1") = false.
Proof.
  apply (X8_mismatch_reported Sample.fromstring Sample.float_text Sample.no_round
           Sample.mismatched_release 0.95%float 0.915%float
           (Some "1.4.0", Some "1.4.0", Some "1.4.1") (Some "1.3.0") [mismatch_msg]);
    [reflexivity|vm_compute; reflexivity].
Defined.

Lemma X9_witness :
  evaluate Sample.fromstring Sample.float_text Sample.no_round Sample.no_section
           0.95%float 0.915%float (None, Some "1.4.0", Some "1.4.0")
  = crash TypeError.
Proof.
  apply (X9_none_version_is_a_type_error Sample.fromstring Sample.float_text
           Sample.no_round Sample.no_section 0.95%float 0.915%float
           (None, Some "1.4.0", Some "1.4.0") (Some "1.3.0") Sample.clean_repo);
    [reflexivity|vm_compute; reflexivity|reflexivity|right; left; reflexivity].
Defined.

(* ================================================================= *)
(** ** Scores that are not numbers *)

Lemma leb_nan (x c : float) : is_nan c = true -> (x <=? c)%float = false.
Proof.
  unfold is_nan. rewrite eqb_spec, leb_spec. unfold SFeqb, SFleb.
  destruct (Prim2SF c) as [s|s| |s m e].
  - destruct s; discriminate.
  - destruct s; discriminate.
  - intros _. destruct (Prim2SF x) as [s|s| |s m e]; reflexivity.
  - cbn [SFcompare]. rewrite Z.compare_refl, Pos.compare_refl.
    destruct s; discriminate.
Qed.

(** X10. A score that is a NaN (a report with [NaN] as its percentage, a
    lint line whose numeral is [nan]) is below its threshold: the
    comparison is false, its message is in the list, and no run with
    such a score ends with status 0. *)
Theorem X10_nan_score_is_a_violation
  (ET_fromstring : string -> result Element) (float_str : float -> string)
  (py_round : float -> Z -> float) (c l : float) :
  is_nan c = true \/ is_nan l = true ->
  (is_nan c = true ->
   In (coverage_msg float_str c) (threshold_checks float_str c l)) /\
  (is_nan l = true ->
   In (lint_msg float_str l) (threshold_checks float_str c l)) /\
  (forall w vs,
     ending (evaluate ET_fromstring float_str py_round w c l vs) <> Exit 0).
Proof.
  intros Hnan.
  assert (Hc : is_nan c = true ->
               In (coverage_msg float_str c) (threshold_checks float_str c l)).
  { intros H. rewrite thresholds_eq, (leb_nan _ c H). now left. }
  assert (Hl : is_nan l = true ->
               In (lint_msg float_str l) (threshold_checks float_str c l)).
  { intros H. rewrite thresholds_eq, (leb_nan _ l H).
    apply in_or_app. right. now left. }
  split; [exact Hc|]. split; [exact Hl|].
  intros w vs. apply never_exit_0. intros latest errs Hchecks.
  destruct (checks_extend ET_fromstring float_str w c l vs latest errs Hchecks)
    as (extra & -> & _).
  destruct Hnan as [H|H]; [apply Hc in H|apply Hl in H];
    destruct (threshold_checks float_str c l); try discriminate; destruct H.
Qed.

Lemma X10_witness :
  get_coverage_score Sample.json_loads_any Sample.nan_coverage = Ok nan /\
  ending (evaluate Sample.fromstring Sample.float_text Sample.no_round
            Sample.nan_coverage nan 0.915%float
            (Some "1.3.0", Some "1.3.0", Some "1.3.0")) <> Exit 0.
Proof.
  split; [vm_compute; reflexivity|].
  apply (X10_nan_score_is_a_violation Sample.fromstring Sample.float_text
           Sample.no_round nan 0.915%float). now left.
Defined.

(* ================================================================= *)
(** ** Further properties of the version collector *)

Module QuotedFacts.
Import Str StrFacts.

Lemma quoted_loop_none (key : string) (q : ascii) (lines : list string)
  (v : option string) :
  Forall (fun l => contains key l = false) lines ->
  quoted_loop key q lines v = Ok v.
Proof.
  induction 1 as [|line lines Hline _ IH]; simpl; [reflexivity|].
  now rewrite Hline.
Qed.

Lemma quoted_loop_first (key : string) (q : ascii) (lines : list string)
  (line : string) (v : option string) :
  decides key lines line ->
  quoted_loop key q lines v =
    (piece <- item (split q line) 1 ;; Ok (Some (strip piece))).
Proof.
  intros (skipped & rest & -> & Hskip & Hline).
  induction Hskip as [|l ls Hl _ IH]; simpl.
  - now rewrite Hline.
  - now rewrite Hl.
Qed.

Lemma changelog_loop_decided (lines : list string) (line : string)
  (v : option string) :
  decides "##" lines line ->
  changelog_loop lines v =
    Some (strip (slice line (find "[" line + 1) (find "]" line))).
Proof.
  intros (skipped & rest & -> & Hskip & Hline).
  now apply ChangelogFacts.changelog_loop_first.
Qed.

(** The second piece of a line with two quotes is what they enclose. *)
Lemma item_1_between (q : ascii) (line m : string) :
  between q q line m -> item (split q line) 1 = Ok m.
Proof.
  intros (p & r & -> & Hp & _ & Hm).
  rewrite split_app_sep, (split_free q p Hp).
  rewrite split_app_sep, (split_free q m Hm). reflexivity.
Qed.

(** A line without the quote has one piece only. *)
Lemma item_1_unquoted (q : ascii) (line : string) :
  free_of q line = true -> item (split q line) 1 = Raise IndexError.
Proof.
  intros H. now rewrite (split_free q line H).
Qed.

Lemma slice_brackets (line m : string) :
  between "[" "]" line m ->
  slice line (find "[" line + 1) (find "]" line) = m.
Proof.
  intros (p & r & -> & Hp1 & Hp2 & Hm).
  exact (ChangelogFacts.slice_in_order p m r Hp1 Hp2 Hm).
Qed.

(** Every list of lines has a first line with the key, or none. *)
Lemma decides_cases (key : string) (lines : list string) :
  Forall (fun l => contains key l = false) lines
  \/ exists line, decides key lines line.
Proof.
  induction lines as [|l ls IH]; [now left|].
  destruct (contains key l) eqn:Hl.
  - right. exists l, [], ls. repeat split; trivial.
  - destruct IH as [Hnone | (line & skipped & rest & -> & Hskip & Hline)].
    + left. now constructor.
    + right. exists line, (l :: skipped), rest. repeat split; trivial.
      now constructor.
Qed.

(** What a successful [get_local_versions] returns, file by file. *)
Lemma get_local_versions_parts (w : World) (t1 t2 t3 : string)
  (cv pv dv : option string) :
  read_text w "./CHANGELOG.md" = Ok t1 ->
  read_text w "./setup.py" = Ok t2 ->
  read_text w "./docs/conf.py" = Ok t3 ->
  get_local_versions w = Ok (cv, pv, dv) ->
  cv = changelog_loop (readlines t1) None
  /\ quoted_loop "version" dquote (readlines t2) None = Ok pv
  /\ quoted_loop "release" "'" (readlines t3) None = Ok dv.
Proof.
  intros H1 H2 H3. unfold get_local_versions.
  rewrite H1. cbn [bind]. rewrite H2. cbn [bind].
  destruct (quoted_loop "version" _ _ _) as [pv'|]; cbn [bind]; [|discriminate].
  rewrite H3. cbn [bind].
  destruct (quoted_loop "release" _ _ _) as [dv'|]; cbn [bind]; [|discriminate].
  intros [= <- <- <-]. auto.
Qed.

End QuotedFacts.

(** X11. On a checkout whose three files follow the convention (the
    first changelog line with [##] holds the version in brackets, the
    first setup.py line with [version] holds it in double quotes, the
    first docs/conf.py line with [release] holds it in single quotes)
    [get_local_versions] returns the three enclosed texts, stripped;
    nothing else of the files matters. *)
Theorem X11_versions_of_a_conventional_checkout (w : World)
  (t1 t2 t3 l1 l2 l3 m1 m2 m3 : string) :
  read_text w "./CHANGELOG.md" = Ok t1 ->
  read_text w "./setup.py" = Ok t2 ->
  read_text w "./docs/conf.py" = Ok t3 ->
  decides "##" (Str.readlines t1) l1 -> between "[" "]" l1 m1 ->
  decides "version" (Str.readlines t2) l2 -> between Str.dquote Str.dquote l2 m2 ->
  decides "release" (Str.readlines t3) l3 -> between "'" "'" l3 m3 ->
  get_local_versions w
  = Ok (Some (Str.strip m1), Some (Str.strip m2), Some (Str.strip m3)).
Proof.
  intros H1 H2 H3 D1 B1 D2 B2 D3 B3. unfold get_local_versions.
  rewrite H1. cbn [bind]. rewrite H2. cbn [bind].
  rewrite (QuotedFacts.quoted_loop_first _ _ _ l2 None D2).
  rewrite (QuotedFacts.item_1_between _ l2 m2 B2). cbn [bind].
  rewrite H3. cbn [bind].
  rewrite (QuotedFacts.quoted_loop_first _ _ _ l3 None D3).
  rewrite (QuotedFacts.item_1_between _ l3 m3 B3). cbn [bind].
  rewrite (QuotedFacts.changelog_loop_decided _ l1 None D1).
  now rewrite (QuotedFacts.slice_brackets l1 m1 B1).
Qed.

Lemma Forall_without_key (key : string) (lines : list string) :
  forallb (fun l => negb (Str.contains key l)) lines = true ->
  Forall (fun l => Str.contains key l = false) lines.
Proof.
  intros H. apply Forall_forall. intros l Hin.
  rewrite forallb_forall in H. apply negb_true_iff. now apply H.
Qed.

(** The first line with the key, found by its position [k]. *)
Lemma decides_at (key : string) (lines : list string) (line : string) (k : nat) :
  lines = (firstn k lines ++ line :: skipn (S k) lines)%list ->
  forallb (fun l => negb (Str.contains key l)) (firstn k lines) = true ->
  Str.contains key line = true ->
  decides key lines line.
Proof.
  intros Hsplit Hskip Hline.
  exists (firstn k lines), (skipn (S k) lines).
  split; [exact Hsplit|]. split; [|exact Hline].
  now apply Forall_without_key.
Qed.

Lemma X11_witness :
  get_local_versions Sample.passing
  = Ok (Some (Str.strip "1.3.0"), Some (Str.strip "1.3.0"), Some (Str.strip "1.3.0")).
Proof.
  apply (X11_versions_of_a_conventional_checkout Sample.passing
           (Sample.changelog_text "1.3.0") (Sample.setup_text "1.3.0")
           (Sample.conf_text "1.3.0")
           ("## [1.3.0] - 2021-03-01" ++ String Str.newline "")
           ("    version=" ++ Sample.quoted "1.3.0" ++ "," ++ String Str.newline "")
           ("release = '1.3.0'" ++ String Str.newline ""));
    try reflexivity.
  - apply (decides_at _ _ _ 2); vm_compute; reflexivity.
  - exists "## ", (" - 2021-03-01" ++ String Str.newline "")%string.
    repeat split; reflexivity.
  - apply (decides_at _ _ _ 2); vm_compute; reflexivity.
  - exists "    version=", ("," ++ String Str.newline "")%string.
    repeat split; reflexivity.
  - apply (decides_at _ _ _ 1); vm_compute; reflexivity.
  - exists "release = ", (String Str.newline "").
    repeat split; reflexivity.
Defined.

(** X12. When the first setup.py line with [version] has no double
    quote, or the first docs/conf.py line with [release] has no single
    quote, [get_local_versions] raises [IndexError], and a run whose
    reports are in order dies of it with nothing printed, with or
    without the release check. *)
Theorem X12_unquoted_version_line
  (json_loads : string -> result json) (ET_fromstring : string -> result Element)
  (float_str : float -> string) (py_round : float -> Z -> float)
  (w : World) (t1 t2 : string) :
  read_text w "./CHANGELOG.md" = Ok t1 ->
  read_text w "./setup.py" = Ok t2 ->
  ((forall line, decides "version" (Str.readlines t2) line ->
      Str.free_of Str.dquote line = true ->
      get_local_versions w = Raise IndexError) /\
   (forall pv t3 line,
      quoted_loop "version" Str.dquote (Str.readlines t2) None = Ok pv ->
      read_text w "./docs/conf.py" = Ok t3 ->
      decides "release" (Str.readlines t3) line ->
      Str.free_of "'" line = true ->
      get_local_versions w = Raise IndexError)) /\
  (get_local_versions w = Raise IndexError ->
   forall c l,
     get_coverage_score json_loads w = Ok c -> get_lint_score w = Ok l ->
     main json_loads ET_fromstring float_str py_round w = crash IndexError).
Proof.
  intros H1 H2. split; [split|].
  - intros line D Hfree. unfold get_local_versions.
    rewrite H1. cbn [bind]. rewrite H2. cbn [bind].
    rewrite (QuotedFacts.quoted_loop_first _ _ _ line None D).
    now rewrite (QuotedFacts.item_1_unquoted _ line Hfree).
  - intros pv t3 line Hpv H3 D Hfree. unfold get_local_versions.
    rewrite H1. cbn [bind]. rewrite H2. cbn [bind]. rewrite Hpv. cbn [bind].
    rewrite H3. cbn [bind].
    rewrite (QuotedFacts.quoted_loop_first _ _ _ line None D).
    now rewrite (QuotedFacts.item_1_unquoted _ line Hfree).
  - intros Hraise c l Hc Hl. unfold main. now rewrite Hc, Hl, Hraise.
Qed.

Lemma X12_witness :
  main Sample.json_loads Sample.fromstring Sample.float_text Sample.no_round
       Sample.single_quoted_setup
  = crash IndexError.
Proof.
  destruct (X12_unquoted_version_line Sample.json_loads Sample.fromstring
              Sample.float_text Sample.no_round Sample.single_quoted_setup
              (Sample.changelog_text "1.3.0")
              ("    version='1.3.0'," ++ String Str.newline "")
              eq_refl eq_refl) as [[Hsetup _] Hmain].
  assert (D : decides "version"
                (Str.readlines ("    version='1.3.0'," ++ String Str.newline ""))
                ("    version='1.3.0'," ++ String Str.newline ""))
    by (apply (decides_at _ _ _ 0); reflexivity).
  apply (Hmain (Hsetup _ D eq_refl) 0.95%float 0.915%float);
    vm_compute; reflexivity.
Defined.

(** X13. When [get_local_versions] returns, each of the three versions
    is [None] exactly when its file has no line with its key ([##],
    [version], [release]): a missing key is no error there, and a line
    with the key always gives a string. *)
Theorem X13_none_when_no_line_has_the_key (w : World) (t1 t2 t3 : string)
  (cv pv dv : option string) :
  read_text w "./CHANGELOG.md" = Ok t1 ->
  read_text w "./setup.py" = Ok t2 ->
  read_text w "./docs/conf.py" = Ok t3 ->
  get_local_versions w = Ok (cv, pv, dv) ->
  (cv = None <-> Forall (fun l => Str.contains "##" l = false) (Str.readlines t1)) /\
  (pv = None <-> Forall (fun l => Str.contains "version" l = false) (Str.readlines t2)) /\
  (dv = None <-> Forall (fun l => Str.contains "release" l = false) (Str.readlines t3)).
Proof.
  intros H1 H2 H3 Hget.
  destruct (QuotedFacts.get_local_versions_parts w t1 t2 t3 cv pv dv H1 H2 H3 Hget)
    as (-> & Hpv & Hdv).
  split; [|split].
  - split.
    + intros Hnone.
      destruct (QuotedFacts.decides_cases "##" (Str.readlines t1))
        as [Hall | [line D]]; [exact Hall|].
      rewrite (QuotedFacts.changelog_loop_decided _ line None D) in Hnone.
      discriminate.
    + intros Hall. now apply ChangelogFacts.changelog_loop_none.
  - split.
    + intros ->.
      destruct (QuotedFacts.decides_cases "version" (Str.readlines t2))
        as [Hall | [line D]]; [exact Hall|].
      rewrite (QuotedFacts.quoted_loop_first _ _ _ line None D) in Hpv.
      destruct (Str.item _ 1); discriminate.
    + intros Hall. rewrite (QuotedFacts.quoted_loop_none _ _ _ None Hall) in Hpv.
      now injection Hpv.
  - split.
    + intros ->.
      destruct (QuotedFacts.decides_cases "release" (Str.readlines t3))
        as [Hall | [line D]]; [exact Hall|].
      rewrite (QuotedFacts.quoted_loop_first _ _ _ line None D) in Hdv.
      destruct (Str.item _ 1); discriminate.
    + intros Hall. rewrite (QuotedFacts.quoted_loop_none _ _ _ None Hall) in Hdv.
      now injection Hdv.
Qed.

Lemma X13_witness :
  (@None string = None <->
   Forall (fun l => Str.contains "##" l = false) (Str.readlines "# Changelog")).
Proof.
  refine (proj1 (X13_none_when_no_line_has_the_key Sample.no_section
            "# Changelog" (Sample.setup_text "1.4.0") (Sample.conf_text "1.4.0")
            None (Some "1.4.0") (Some "1.4.0") eq_refl eq_refl eq_refl _)).
  vm_compute. reflexivity.
Defined.

(* ================================================================= *)
(** ** A section line without brackets *)

Module HeadingFacts.
Import Str StrFacts SliceFacts.

(** [find] of a character that is not there. *)
Lemma find_from_absent (c : ascii) (s : string) (i : Z) :
  free_of c s = true -> find_from (String c "") s i = -1.
Proof.
  revert i. induction s as [|x s IH]; intros i Hfree; [reflexivity|].
  simpl in Hfree. apply andb_true_iff in Hfree as [Hx Hs].
  cbn [find_from]. rewrite prefix_char.
  apply negb_true_iff in Hx. rewrite Hx. now apply IH.
Qed.

Lemma find_absent (c : ascii) (s : string) :
  free_of c s = true -> find (String c "") s = -1.
Proof.
  intros H. unfold find. now apply find_from_absent.
Qed.

(** [s[0:-1]] is [s] without its last character. *)
Lemma slice_drop_last (body : string) (c : ascii) :
  slice (body ++ String c "") 0 (-1) = body.
Proof.
  unfold slice, clip. rewrite length_app. cbn [String.length].
  destruct (Z.ltb_spec 0 0); [lia|].
  destruct (Z.ltb_spec (-1) 0); [|lia].
  replace (Z.to_nat (Z.min 0 _)) with 0%nat by lia.
  replace (Z.to_nat (_ - _)) with (String.length body) by lia.
  apply substring_take.
Qed.

End HeadingFacts.

(** X14. When the first changelog line with [##] has neither [[] nor
    []], both [find] calls give -1 and the slice is [line[0:-1]]: the
    changelog version is the whole line without its last character,
    stripped - no error and no [None], so such a heading reaches the
    version comparisons as a version. *)
Theorem X14_heading_without_brackets (w : World) (t1 t2 t3 line body : string)
  (c : ascii) (cv pv dv : option string) :
  read_text w "./CHANGELOG.md" = Ok t1 ->
  read_text w "./setup.py" = Ok t2 ->
  read_text w "./docs/conf.py" = Ok t3 ->
  get_local_versions w = Ok (cv, pv, dv) ->
  decides "##" (Str.readlines t1) line ->
  line = (body ++ String c "")%string ->
  Str.free_of "[" line = true -> Str.free_of "]" line = true ->
  cv = Some (Str.strip body).
Proof.
  intros H1 H2 H3 Hget D Hline Hopen Hclose.
  destruct (QuotedFacts.get_local_versions_parts w t1 t2 t3 cv pv dv H1 H2 H3 Hget)
    as (-> & _ & _).
  rewrite (QuotedFacts.changelog_loop_decided _ line None D).
  rewrite (HeadingFacts.find_absent _ line Hopen).
  rewrite (HeadingFacts.find_absent _ line Hclose).
  change (-1 + 1) with 0. subst line.
  now rewrite HeadingFacts.slice_drop_last.
Qed.

Lemma X14_witness :
  Some "## Unreleased" = Some (Str.strip "## Unreleased").
Proof.
  assert (G : get_local_versions Sample.unreleased_heading
              = Ok (Some "## Unreleased", Some "1.3.0", Some "1.3.0"))
    by (vm_compute; reflexivity).
  assert (D : decides "##"
                (Str.readlines ("## Unreleased" ++ String Str.newline ""))
                ("## Unreleased" ++ String Str.newline ""))
    by (apply (decides_at _ _ _ 0); reflexivity).
  apply (X14_heading_without_brackets Sample.unreleased_heading
           ("## Unreleased" ++ String Str.newline "")
           (Sample.setup_text "1.3.0") (Sample.conf_text "1.3.0")
           ("## Unreleased" ++ String Str.newline "") "## Unreleased"
           Str.newline _ _ _ eq_refl eq_refl eq_refl G D eq_refl eq_refl eq_refl).
Defined.
